(** * cdvdGigaherz read-ahead thread (plugins/cdvdGigaherz/src/ReadThread.cpp)

    A shallow embedding of the sector cache, the single-slot request
    protocol, the prefetching worker loop and the disc-status monitor,
    together with the properties stated for them. *)

From Stdlib Require Import ZArith List Lia Bool.
From Stdlib Require Strings.Byte.
From stdpp Require Import base decidable numbers list.
From Equations Require Import Equations.
Import ListNotations.

Local Open Scope Z_scope.

(** ** Machine integers

    [s32] and [u32] values are integers of [Z]; every conversion the C
    code performs is written out as a wrap-around. *)

Definition to_u32 (z : Z) : Z := z mod 2 ^ 32.
Definition to_s32 (z : Z) : Z := (z + 2 ^ 31) mod 2 ^ 32 - 2 ^ 31.

Definition is_u32 (z : Z) : Prop := 0 <= z < 2 ^ 32.
Definition is_s32 (z : Z) : Prop := - 2 ^ 31 <= z < 2 ^ 31.

(** ** Sector blocks and the cache array *)

Abbreviation char := Byte.byte.

(** [char data[2352 * 16]]: one block of 16 raw sectors. *)
Definition BLOCK_BYTES : Z := 2352 * 16.

Record SectorInfo := mkSectorInfo {
  lsn : Z;
  mode : Z;
  data : list char
}.

Definition CACHE_SIZE : Z := 12.
Definition CacheSize : Z := Z.shiftl 1 CACHE_SIZE.

(** [memcpy(dst, src, n)] on buffers that both hold at least [n] bytes. *)
Definition memcpy (dst src : list char) (n : Z) : list char :=
  take (Z.to_nat n) src ++ drop (Z.to_nat n) dst.

(** The [while (i >= 0)] loop of [cdvdSectorHash]; [t] is [u32], [l]
    and [i] are [int]. *)
Equations? hash_loop (t l i : Z) : Z by wf (Z.to_nat (i + 1)) lt :=
  hash_loop t l i with decide (0 <= i) => {
    | left _ =>
        hash_loop (Z.lxor t (to_u32 (Z.land l (CacheSize - 1))))
                  (Z.shiftr l CACHE_SIZE)
                  (i - CACHE_SIZE)
    | right _ => t
  }.
Proof. unfold CACHE_SIZE. lia. Qed.

Definition cdvdSectorHash (l m : Z) : Z :=
  let t := hash_loop 0 l 32 in
  Z.land (Z.lxor t (to_u32 m)) (to_u32 (CacheSize - 1)).

(** The hash as the specification words it: an accumulator started at 0
    and a bit-position counter started at 32; while the counter is not
    negative, XOR in the low 12 bits of the address, shift the address
    right by 12 and take 12 off the counter; at the end XOR with the
    mode and keep the low 12 bits.  [steps] bounds the number of rounds;
    from a counter of 32 fewer than 33 are made. *)
Fixpoint spec_fold (steps : nat) (acc a counter : Z) : Z :=
  match steps with
  | O => acc
  | S k =>
      if counter <? 0 then acc
      else spec_fold k (Z.lxor acc (Z.land a (2 ^ 12 - 1))) (Z.shiftr a 12) (counter - 12)
  end.

Definition spec_hash (a m : Z) : Z :=
  Z.land (Z.lxor (spec_fold 33 0 a 32) m) (2 ^ 12 - 1).

(** [cdvdCacheUpdate]: the slot chosen by the hash is overwritten, tag
    and payload, without a hit check. *)
Definition cdvdCacheUpdate (l m : Z) (buf : list char)
    (C : list SectorInfo) : list SectorInfo :=
  let entry := Z.to_nat (cdvdSectorHash l m) in
  match C !! entry with
  | Some slot => <[entry := mkSectorInfo l m (memcpy (data slot) buf BLOCK_BYTES)]> C
  | None => C (* not reached: the hash is below [CacheSize] *)
  end.

(** [cdvdCacheFetch]: the result pairs the returned flag with the
    caller's buffer after the call. *)
Definition cdvdCacheFetch (l m : Z) (out : list char)
    (C : list SectorInfo) : bool * list char :=
  let entry := Z.to_nat (cdvdSectorHash l m) in
  match C !! entry with
  | Some slot =>
      if (lsn slot =? l) && (mode slot =? m)
      then (true, memcpy out (data slot) BLOCK_BYTES)
      else (false, out)
  | None => (false, out) (* not reached *)
  end.

Definition cdvdCacheReset (C : list SectorInfo) : list SectorInfo :=
  map (fun slot => mkSectorInfo (-1) (-1) (data slot)) C.

(** A run of cache updates [(lsn, mode, buffer)], applied in order. *)
Definition cdvdCacheUpdates (ups : list (Z * Z * list char))
    (C : list SectorInfo) : list SectorInfo :=
  fold_left (fun C' u => cdvdCacheUpdate (fst (fst u)) (snd (fst u)) (snd u) C') ups C.

(** [C'] is [C] with block [buf] of [(l, m)] written into its slot: the
    slot carries the tag and the first 16 * 2352 bytes of [buf] over its
    old payload, every other slot is as before, a fetch of [(l, m)]
    hits, and it hands over those bytes when [buf] holds a full
    block. *)
Definition cache_stores (C C' : list SectorInfo) (l m : Z) (buf : list char) : Prop :=
  let entry := Z.to_nat (cdvdSectorHash l m) in
  (exists old,
     C !! entry = Some old /\
     C' !! entry = Some (mkSectorInfo l m (memcpy (data old) buf BLOCK_BYTES))) /\
  (forall j : nat, j <> entry -> C' !! j = C !! j) /\
  (forall out, fst (cdvdCacheFetch l m out C') = true) /\
  ((Z.to_nat BLOCK_BYTES <= length buf)%nat ->
   forall out, cdvdCacheFetch l m out C' = (true, memcpy out buf BLOCK_BYTES)).

(** ** The media backend and what the outside world observes *)

(** The [src] object: the operations this file calls on it, over an
    abstract backend state.  A read receives the caller's buffer and
    gives back the success flag, the buffer afterwards and the backend
    afterwards; [GetSectorCount] is a [u32]. *)
Class IOCtlSrc (Src : Type) := {
  DiscReady : Src -> bool * Src;
  GetSectorCount : Src -> Z;
  ReadSectors2048 : Z -> Z -> list char -> Src -> bool * list char * Src;
  ReadSectors2352 : Z -> Z -> list char -> Src -> bool * list char * Src;
  GetMediaType : Src -> Z;
  (** the first and last track that [cdvdParseTOC] (defined outside this
      file) stores into [strack] and [etrack] *)
  ParseTOC : Src -> Z * Z
}.

Inductive Event :=
| EvReadSectors2048 (sector count : Z) (ok : bool)
| EvReadSectors2352 (sector count : Z) (ok : bool)
| EvNotifyWorker   (* s_notify_cv.notify_one() *)
| EvNotifyRequest  (* s_request_cv.notify_one() *)
| EvNewDiscCB      (* newDiscCB() *)
| EvSleep (ms : Z)
| EvWait (ms : Z).

Definition is_read (e : Event) : bool :=
  match e with
  | EvReadSectors2048 _ _ _ | EvReadSectors2352 _ _ _ => true
  | _ => false
  end.

Definition is_newDiscCB (e : Event) : bool :=
  match e with EvNewDiscCB => true | _ => false end.

Definition read_sector (e : Event) : option Z :=
  match e with
  | EvReadSectors2048 l _ _ | EvReadSectors2352 l _ _ => Some l
  | _ => None
  end.

Definition read_count (e : Event) : option Z :=
  match e with
  | EvReadSectors2048 _ c _ | EvReadSectors2352 _ c _ => Some c
  | _ => None
  end.

(** [e] is a backend read of the block at sector [l]. *)
Definition is_read_at (l : Z) (e : Event) : Prop :=
  is_read e = true /\ read_sector e = Some l.

(** A scripted drive for running the code on concrete inputs: the
    answers [DiscReady] gives in turn (present once the script is
    used up), the sector count, how many reads fail before reads start
    to succeed, and the block a successful read delivers. *)
Record MockSrc := mkMockSrc {
  mock_ready : list bool;
  mock_sectors : Z;
  mock_failures : nat;
  mock_block : Z -> list char
}.

Definition mock_read (l count : Z) (buf : list char) (b : MockSrc)
    : bool * list char * MockSrc :=
  match mock_failures b with
  | O => (true, mock_block b l, b)
  | S k => (false, buf, mkMockSrc (mock_ready b) (mock_sectors b) k (mock_block b))
  end.

#[export] Instance MockSrc_IOCtlSrc : IOCtlSrc MockSrc := {
  DiscReady b :=
    match mock_ready b with
    | [] => (true, b)
    | r :: rs => (r, mkMockSrc rs (mock_sectors b) (mock_failures b) (mock_block b))
    end;
  GetSectorCount := mock_sectors;
  ReadSectors2048 := mock_read;
  ReadSectors2352 := mock_read;
  GetMediaType _ := 0;
  ParseTOC _ := (1, 1)
}.

(** The enumerators of CDVD.h that this file refers to.  The header is
    not part of the sources at hand, so their values are parameters;
    [CDVD_MODE_2352] is the mode the [switch] statements leave to their
    fall-through. *)
Class CDVD_h := {
  CDVD_MODE_2048 : Z;
  CDVD_MODE_2328 : Z;
  CDVD_MODE_2340 : Z;
  CDVD_MODE_2352 : Z;
  CDVD_TYPE_NODISC : Z;
  CDVD_TYPE_DETCTCD : Z;
  CDVD_TYPE_DETCTDVDS : Z;
  CDVD_TYPE_DETCTDVDD : Z;
  CDVD_TRAY_OPEN : Z;
  CDVD_TRAY_CLOSE : Z
}.

(** The four read modes are different enumerators. *)
Definition modes_distinct {defs : CDVD_h} : Prop :=
  NoDup [CDVD_MODE_2048; CDVD_MODE_2328; CDVD_MODE_2340; CDVD_MODE_2352].

(** One assignment of the enumerators, for running the code. *)
Definition sample_defs : CDVD_h := {|
  CDVD_MODE_2352 := 0;
  CDVD_MODE_2340 := 1;
  CDVD_MODE_2328 := 2;
  CDVD_MODE_2048 := 3;
  CDVD_TYPE_NODISC := 0;
  CDVD_TYPE_DETCTCD := 2;
  CDVD_TYPE_DETCTDVDS := 3;
  CDVD_TYPE_DETCTDVDD := 4;
  CDVD_TRAY_CLOSE := 0;
  CDVD_TRAY_OPEN := 1
|}.

Definition prefetch_max_blocks : Z := 16.

(** ** The globals of the subsystem *)

Record PrefetchState := mkPrefetch {
  prefetch_last_lba : Z;
  prefetch_last_mode : Z;
  prefetch_left : Z
}.

Record DiscState := mkDisc {
  disc_has_changed : bool;
  curDiskType : Z;
  curTrayStatus : Z;
  weAreInNewDiskCB : bool;
  strack : Z;
  etrack : Z
}.

(** [info] is the [static SectorInfo info] of [cdvdThread] and
    [direct_data] the [static char data[16 * 2352]] of
    [cdvdDirectReadSector]; [trace] lists, oldest first, the calls made
    to the outside. *)
Record State (Src : Type) := mkState {
  prefetch : PrefetchState;
  disc : DiscState;
  Cache : list SectorInfo;
  threadRequestPending : bool;
  threadRequestInfo : SectorInfo;
  info : SectorInfo;
  direct_data : list char;
  cdvd_is_open : bool;
  src : Src;
  trace : list Event
}.

Arguments mkState {Src}.
Arguments prefetch {Src}.
Arguments disc {Src}.
Arguments Cache {Src}.
Arguments threadRequestPending {Src}.
Arguments threadRequestInfo {Src}.
Arguments info {Src}.
Arguments direct_data {Src}.
Arguments cdvd_is_open {Src}.
Arguments src {Src}.
Arguments trace {Src}.

Section Subsystem.

Context {Src : Type} {io : IOCtlSrc Src} {defs : CDVD_h}.

Definition set_prefetch (v : PrefetchState) (s : State Src) : State Src :=
  mkState v (disc s) (Cache s) (threadRequestPending s) (threadRequestInfo s)
          (info s) (direct_data s) (cdvd_is_open s) (src s) (trace s).

Definition set_disc (v : DiscState) (s : State Src) : State Src :=
  mkState (prefetch s) v (Cache s) (threadRequestPending s) (threadRequestInfo s)
          (info s) (direct_data s) (cdvd_is_open s) (src s) (trace s).

Definition set_Cache (v : list SectorInfo) (s : State Src) : State Src :=
  mkState (prefetch s) (disc s) v (threadRequestPending s) (threadRequestInfo s)
          (info s) (direct_data s) (cdvd_is_open s) (src s) (trace s).

Definition set_threadRequestPending (v : bool) (s : State Src) : State Src :=
  mkState (prefetch s) (disc s) (Cache s) v (threadRequestInfo s)
          (info s) (direct_data s) (cdvd_is_open s) (src s) (trace s).

Definition set_threadRequestInfo (v : SectorInfo) (s : State Src) : State Src :=
  mkState (prefetch s) (disc s) (Cache s) (threadRequestPending s) v
          (info s) (direct_data s) (cdvd_is_open s) (src s) (trace s).

Definition set_info (v : SectorInfo) (s : State Src) : State Src :=
  mkState (prefetch s) (disc s) (Cache s) (threadRequestPending s) (threadRequestInfo s)
          v (direct_data s) (cdvd_is_open s) (src s) (trace s).

Definition set_direct_data (v : list char) (s : State Src) : State Src :=
  mkState (prefetch s) (disc s) (Cache s) (threadRequestPending s) (threadRequestInfo s)
          (info s) v (cdvd_is_open s) (src s) (trace s).

Definition set_src (v : Src) (s : State Src) : State Src :=
  mkState (prefetch s) (disc s) (Cache s) (threadRequestPending s) (threadRequestInfo s)
          (info s) (direct_data s) (cdvd_is_open s) v (trace s).

Definition emit (e : Event) (s : State Src) : State Src :=
  mkState (prefetch s) (disc s) (Cache s) (threadRequestPending s) (threadRequestInfo s)
          (info s) (direct_data s) (cdvd_is_open s) (src s) (trace s ++ [e]).

(** [src->GetSectorCount()], a [u32]. *)
Definition sector_count (s : State Src) : Z := to_u32 (GetSectorCount (src s)).

(** ** Disc status *)

Definition cdvdCallNewDiscCB (s : State Src) : State Src :=
  let d := disc s in
  let s := set_disc (mkDisc (disc_has_changed d) (curDiskType d) (curTrayStatus d)
                            true (strack d) (etrack d)) s in
  let s := emit EvNewDiscCB s in
  let d := disc s in
  set_disc (mkDisc (disc_has_changed d) (curDiskType d) (curTrayStatus d)
                   false (strack d) (etrack d)) s.

Definition cdvdGetMediaType (s : State Src) : Z := to_s32 (GetMediaType (src s)).

Definition cdvdRefreshData (s : State Src) : State Src :=
  let '(st, et) := ParseTOC (src s) in
  let d := disc s in
  let ty :=
    if (et =? 0) || (st >? et) then CDVD_TYPE_NODISC
    else
      let mt := cdvdGetMediaType s in
      if mt <? 0 then CDVD_TYPE_DETCTCD
      else if mt =? 0 then CDVD_TYPE_DETCTDVDS
      else CDVD_TYPE_DETCTDVDD in
  let s := set_disc (mkDisc (disc_has_changed d) ty CDVD_TRAY_CLOSE
                            (weAreInNewDiskCB d) st et) s in
  set_Cache (cdvdCacheReset (Cache s)) s.

Definition cdvdUpdateDiscStatus (s : State Src) : bool * State Src :=
  let '(ready, b) := DiscReady (src s) in
  let s := set_src b s in
  let d := disc s in
  let s :=
    if negb ready then
      if negb (disc_has_changed d) then
        cdvdCallNewDiscCB
          (set_disc (mkDisc true CDVD_TYPE_NODISC CDVD_TRAY_OPEN
                            (weAreInNewDiskCB d) (strack d) (etrack d)) s)
      else s
    else
      if disc_has_changed d then
        cdvdCallNewDiscCB
          (cdvdRefreshData
             (set_disc (mkDisc false CDVD_TYPE_NODISC CDVD_TRAY_CLOSE
                               (weAreInNewDiskCB d) (strack d) (etrack d)) s))
      else s in
  (negb ready, s).

(** A sequence of status checks, one per poll; the result lists what
    each check returned. *)
Fixpoint poll (n : nat) (s : State Src) : list bool * State Src :=
  match n with
  | O => ([], s)
  | S k =>
      let '(r, s1) := cdvdUpdateDiscStatus s in
      let '(rs, s2) := poll k s1 in
      (r :: rs, s2)
  end.

(** ** Blocking reads with retry *)

(** One call of [ReadSectors2048] or [ReadSectors2352], chosen by the
    mode, on buffer [buf]: the success flag, the buffer and the backend
    after the call, and the call as an event. *)
Definition read_once (l m count : Z) (buf : list char) (b : Src)
    : bool * list char * Src * Event :=
  if m =? CDVD_MODE_2048 then
    let '(ok, buf', b') := ReadSectors2048 l count buf b in
    (ok, buf', b', EvReadSectors2048 l count ok)
  else
    let '(ok, buf', b') := ReadSectors2352 l count buf b in
    (ok, buf', b', EvReadSectors2352 l count ok).

(** [for (int tries = 0; tries < 4; ++tries) { if (read) break; }] with
    [left] iterations still to go; the result carries the calls made. *)
Fixpoint read_tries (left : nat) (l m count : Z) (buf : list char) (b : Src)
    : list char * Src * list Event :=
  match left with
  | O => (buf, b, [])
  | S k =>
      let '(ok, buf', b', e) := read_once l m count buf b in
      if ok then (buf', b', [e])
      else
        let '(buf'', b'', es) := read_tries k l m count buf' b' in
        (buf'', b'', e :: es)
  end.

(** The buffer and the backend after [k] read calls in a row, whatever
    each of them returned. *)
Fixpoint after_attempts (k : nat) (l m count : Z) (buf : list char) (b : Src)
    : list char * Src :=
  match k with
  | O => (buf, b)
  | S j =>
      let '(buf', b') := after_attempts j l m count buf b in
      let '(_, buf'', b'', _) := read_once l m count buf' b' in
      (buf'', b'')
  end.

(** Whether the read call made after [k] earlier ones succeeds. *)
Definition attempt_ok (k : nat) (l m count : Z) (buf : list char) (b : Src) : bool :=
  let '(buf', b') := after_attempts k l m count buf b in
  fst (fst (fst (read_once l m count buf' b'))).

Definition emits (es : list Event) (s : State Src) : State Src :=
  mkState (prefetch s) (disc s) (Cache s) (threadRequestPending s) (threadRequestInfo s)
          (info s) (direct_data s) (cdvd_is_open s) (src s) (trace s ++ es).

(** [count = 16; left = GetSectorCount() - lsn; if (left < count) count = left;] *)
Definition block_count (l : Z) (s : State Src) : Z :=
  let count := 16 in
  let left := to_s32 (to_u32 (sector_count s - to_u32 l)) in
  if left <? count then left else count.

(** ** The worker *)

(** Lines 151-197 of [cdvdThread]: pick the target, read it, update the
    cache, then fulfil the request or advance the prefetch. *)
Definition cdvdThread_service (s : State Src) : State Src :=
  let handlingRequest := threadRequestPending s in
  let s :=
    if threadRequestPending s then set_info (threadRequestInfo s) s
    else set_info (mkSectorInfo (prefetch_last_lba (prefetch s))
                                (prefetch_last_mode (prefetch s))
                                (data (info s))) s in
  if threadRequestPending s || negb (prefetch_left (prefetch s) =? 0) then
    let i := info s in
    let count := block_count (lsn i) s in
    let '(buf, b, es) := read_tries 4 (lsn i) (mode i) count (data i) (src s) in
    let s := emits es (set_src b s) in
    let s := set_info (mkSectorInfo (lsn i) (mode i) buf) s in
    let i := info s in
    let s := set_Cache (cdvdCacheUpdate (lsn i) (mode i) (data i) (Cache s)) s in
    if handlingRequest then
      let s := set_threadRequestInfo i s in
      let s := set_threadRequestPending false s in
      let s := emit EvNotifyRequest s in
      set_prefetch (mkPrefetch (lsn i) (mode i) prefetch_max_blocks) s
    else
      let p := prefetch s in
      set_prefetch (mkPrefetch (to_s32 (prefetch_last_lba p + 16))
                               (prefetch_last_mode p)
                               (to_s32 (prefetch_left p - 1))) s
  else s.

(** [k] such passes in a row, nothing else touching the globals in
    between. *)
Fixpoint service_passes (k : nat) (s : State Src) : State Src :=
  match k with
  | O => s
  | S j => cdvdThread_service (service_passes j s)
  end.

(** One pass through the body of [while (cdvd_is_open)]. *)
Definition cdvdThread_body (s : State Src) : State Src :=
  let '(absent, s) := cdvdUpdateDiscStatus s in
  if absent then emit (EvSleep 10) s
  else
    let s := emit (EvWait (if prefetch_left (prefetch s) =? 0 then 250 else 1)) s in
    if negb (cdvd_is_open s) then s
    else cdvdThread_service s.

(** [cdvdThread] for at most [n] passes. *)
Fixpoint cdvdThread (n : nat) (s : State Src) : State Src :=
  match n with
  | O => s
  | S k => if cdvd_is_open s then cdvdThread k (cdvdThread_body s) else s
  end.

(** ** The request coordinator *)

Definition cdvdRequestSector (sector m : Z) (s : State Src) : Z * State Src :=
  if sector >=? sector_count s then (-1, s)
  else
    let sector := Z.land sector (to_u32 (Z.lnot 15)) in
    let s := set_threadRequestInfo
               (mkSectorInfo (to_s32 sector) m (data (threadRequestInfo s))) s in
    let s := set_threadRequestPending false s in
    let '(hit, buf) :=
      cdvdCacheFetch (to_s32 sector) m (data (threadRequestInfo s)) (Cache s) in
    let r := threadRequestInfo s in
    let s := set_threadRequestInfo (mkSectorInfo (lsn r) (mode r) buf) s in
    if hit then (0, s)
    else
      let s := set_threadRequestPending true s in
      (0, emit EvNotifyWorker s).

Definition cdvdRequestComplete (s : State Src) : Z :=
  if negb (threadRequestPending s) then 1 else 0.

(** [cdvdGetSector] gives the pointer as a byte offset from
    [threadRequestInfo.data]; while the request is pending the caller
    stays in the wait loop, which is the [None] here. *)
Definition cdvdGetSector (sector m : Z) (s : State Src) : option Z :=
  if threadRequestPending s then None
  else if m =? CDVD_MODE_2048 then
    let offset := to_s32 (2048 * (sector - lsn (threadRequestInfo s))) in
    Some offset
  else
    let offset := to_s32 (2352 * (sector - lsn (threadRequestInfo s))) in
    if m =? CDVD_MODE_2328 then Some (offset + 24)
    else if m =? CDVD_MODE_2340 then Some (offset + 12)
    else Some offset.

(** [memcpy(buffer, from + off, n)]: [None] when the [n] bytes do not all
    lie inside [from]. *)
Definition memcpy_from (buffer from : list char) (off n : Z)
    : option (list char) :=
  if (0 <=? off) && (off + n <=? Z.of_nat (length from))
  then Some (memcpy buffer (drop (Z.to_nat off) from) n)
  else None.

(** The source range [(offset, length)] of the final [memcpy] of
    [cdvdDirectReadSector]. *)
Definition direct_copy_range (first sector m : Z) : Z * Z :=
  if m =? CDVD_MODE_2048 then
    let offset := to_s32 (2048 * (first - sector)) in
    (offset, 2048)
  else
    let offset := to_s32 (2352 * (first - sector)) in
    if m =? CDVD_MODE_2328 then (offset + 24, 2328)
    else if m =? CDVD_MODE_2340 then (offset + 12, 2340)
    else (offset + 12, 2352).

Definition cdvdDirectReadSector (first m : Z) (buffer : list char)
    (s : State Src) : Z * option (list char) * State Src :=
  if to_u32 first >=? sector_count s then (-1, Some buffer, s)
  else
    let sector := Z.land first (Z.lnot 15) in
    let '(hit, buf) := cdvdCacheFetch sector m (direct_data s) (Cache s) in
    let s := set_direct_data buf s in
    let s :=
      if negb hit then
        let count := block_count sector s in
        let '(buf, b, es) := read_tries 4 sector m count (direct_data s) (src s) in
        let s := emits es (set_src b s) in
        let s := set_direct_data buf s in
        set_Cache (cdvdCacheUpdate sector m (direct_data s) (Cache s)) s
      else s in
    let '(off, n) := direct_copy_range first sector m in
    (0, memcpy_from buffer (direct_data s) off n, s).

End Subsystem.

(** ** Concrete states for running the code *)

Definition zero_block : list char := replicate (Z.to_nat BLOCK_BYTES) Byte.x00.

(** Byte [i] of every block of the sample disc is [i mod 256]. *)
Definition byte_pattern : list char :=
  map (fun n => default Byte.x00 (Byte.of_nat n)) (seq 0 256).

Definition sample_block (l : Z) : list char :=
  concat (replicate 147 byte_pattern).

Definition sample_disc (sectors : Z) (failures : nat) : MockSrc :=
  mkMockSrc [] sectors failures sample_block.

(** The cache array, zero-initialised and then reset. *)
Definition fresh_cache : list SectorInfo :=
  cdvdCacheReset (replicate (Z.to_nat CacheSize) (mkSectorInfo 0 0 zero_block)).

(** The globals as [cdvdStartThread] leaves them: zero-initialised, the
    cache reset, the thread flagged as open. *)
Definition mock_state (b : MockSrc) : State MockSrc :=
  mkState (mkPrefetch 0 0 0) (mkDisc false 0 0 false 0 0)
          fresh_cache
          false (mkSectorInfo 0 0 zero_block) (mkSectorInfo 0 0 zero_block)
          zero_block true b [].

(** The same with a request for block [l] in mode [m] fulfilled or
    still pending. *)
Definition mock_state_with_request (b : MockSrc) (l m : Z) (pending : bool)
    : State MockSrc :=
  set_threadRequestPending pending
    (set_threadRequestInfo (mkSectorInfo l m zero_block) (mock_state b)).

(** The globals with no request pending and the prefetch at block [l]
    in mode [m] with budget [left]. *)
Definition mock_state_prefetching (b : MockSrc) (l m left : Z) : State MockSrc :=
  set_prefetch (mkPrefetch l m left) (mock_state b).

(** Number of places where two neighbours of a list differ. *)
Fixpoint transitions (l : list bool) : nat :=
  match l with
  | x :: (y :: _) as tl => (if Bool.eqb x y then 0 else 1) + transitions tl
  | _ => 0
  end.

(** Number of calls of the disc-change callback in a trace. *)
Definition cb_count (t : list Event) : nat := length (List.filter is_newDiscCB t).

#[local] Existing Instance sample_defs.

(** Closes a closed comparison of integers by evaluation. *)
Ltac by_evaluation :=
  vm_compute;
  repeat match goal with
         | |- _ /\ _ => split
         | |- _ = _ => reflexivity
         | |- _ -> False => let HH := fresh in intros HH; discriminate HH
         end.

(** * Properties *)

(** ** Machine integers *)

Lemma to_u32_id z : is_u32 z -> to_u32 z = z.
Proof. unfold is_u32, to_u32. intros. apply Z.mod_small. lia. Qed.

Lemma to_s32_id z : is_s32 z -> to_s32 z = z.
Proof. unfold is_s32, to_s32. intros. rewrite Z.mod_small; lia. Qed.

Lemma land_ones12_bound x : 0 <= Z.land x (Z.ones 12) < 2 ^ 12.
Proof. rewrite Z.land_ones by lia. apply Z.mod_pos_bound. lia. Qed.

Lemma land_lxor_u32_low t m :
  Z.land (Z.lxor t (m mod 2 ^ 32)) (Z.ones 12) = Z.land (Z.lxor t m) (Z.ones 12).
Proof.
  apply Z.bits_inj'. intros n Hn.
  rewrite !Z.land_spec, !Z.lxor_spec.
  destruct (Z.ltb_spec n 12) as [Hlt | Hge].
  - rewrite Z.mod_pow2_bits_low by lia. reflexivity.
  - rewrite Z.ones_spec_high by lia. rewrite !andb_false_r. reflexivity.
Qed.

(** ** The hash *)

Lemma hash_loop_step t l i :
  hash_loop t l i =
  if decide (0 <= i)
  then hash_loop (Z.lxor t (to_u32 (Z.land l (CacheSize - 1))))
                 (Z.shiftr l CACHE_SIZE) (i - CACHE_SIZE)
  else t.
Proof.
  rewrite hash_loop_equation_1.
  destruct (decide (0 <= i)); reflexivity.
Qed.

Lemma chunk_u32 l : to_u32 (Z.land l (CacheSize - 1)) = Z.land l (2 ^ 12 - 1).
Proof.
  change (CacheSize - 1) with (Z.ones 12). change (2 ^ 12 - 1) with (Z.ones 12).
  apply to_u32_id. pose proof (land_ones12_bound l). unfold is_u32. lia.
Qed.

(** The loop runs for the counter values 32, 20 and 8 and stops at -4. *)
Lemma hash_loop_three_chunks l :
  hash_loop 0 l 32 = spec_fold 33 0 l 32.
Proof.
  do 4 (rewrite hash_loop_step; rewrite ?chunk_u32;
        unfold CACHE_SIZE; simpl (_ - 12)).
  repeat (destruct (decide _) as [? | ?]; try lia).
  reflexivity.
Qed.

Lemma cdvdSectorHash_bound l m : 0 <= cdvdSectorHash l m < CacheSize.
Proof.
  unfold cdvdSectorHash.
  change (to_u32 (CacheSize - 1)) with (Z.ones 12).
  change CacheSize with (2 ^ 12).
  apply land_ones12_bound.
Qed.

(** C3: the cache hash is the fold of the address into 12-bit chunks
    (accumulator 0, counter from 32 in steps of 12 until negative),
    XORed with the mode and masked to 12 bits; the slot index is below
    4096. *)
Theorem cdvdSectorHash_is_fold (a m : Z) :
  cdvdSectorHash a m = spec_hash a m /\
  0 <= cdvdSectorHash a m < 2 ^ 12.
Proof.
  split.
  - unfold cdvdSectorHash, spec_hash.
    rewrite hash_loop_three_chunks.
    change (to_u32 (CacheSize - 1)) with (Z.ones 12).
    change (2 ^ 12 - 1) with (Z.ones 12).
    apply land_lxor_u32_low.
  - apply cdvdSectorHash_bound.
Qed.

(** ** The cache *)

Lemma memcpy_whole (dst src : list char) n :
  length src = Z.to_nat n -> length dst = Z.to_nat n -> memcpy dst src n = src.
Proof.
  intros Hs Hd. unfold memcpy.
  rewrite firstn_all2 by lia. rewrite skipn_all2 by lia. apply app_nil_r.
Qed.

Lemma memcpy_length (dst src : list char) n :
  length src = Z.to_nat n -> length dst = Z.to_nat n ->
  length (memcpy dst src n) = Z.to_nat n.
Proof. intros Hs Hd. rewrite memcpy_whole; assumption. Qed.

Lemma memcpy_twice (out old buf : list char) n :
  (Z.to_nat n <= length buf)%nat ->
  memcpy out (memcpy old buf n) n = memcpy out buf n.
Proof.
  intros Hb. unfold memcpy. f_equal.
  rewrite take_app_le by (rewrite length_take; lia).
  apply take_idemp.
Qed.

Lemma hash_slot_in_range l m (C : list SectorInfo) :
  length C = Z.to_nat CacheSize -> (Z.to_nat (cdvdSectorHash l m) < length C)%nat.
Proof. intros ->. pose proof (cdvdSectorHash_bound l m). lia. Qed.

Lemma cdvdCacheUpdate_length l m buf (C : list SectorInfo) :
  length (cdvdCacheUpdate l m buf C) = length C.
Proof.
  unfold cdvdCacheUpdate. destruct (C !! _); [apply length_insert | reflexivity].
Qed.

Lemma cdvdCacheUpdate_same l m buf (C : list SectorInfo) :
  length C = Z.to_nat CacheSize ->
  exists old,
    C !! Z.to_nat (cdvdSectorHash l m) = Some old /\
    cdvdCacheUpdate l m buf C !! Z.to_nat (cdvdSectorHash l m)
    = Some (mkSectorInfo l m (memcpy (data old) buf BLOCK_BYTES)).
Proof.
  intros Hlen. pose proof (hash_slot_in_range l m C Hlen) as Hlt.
  destruct (lookup_lt_is_Some_2 _ _ Hlt) as [old Hold].
  exists old. split; [assumption |].
  unfold cdvdCacheUpdate. rewrite Hold.
  apply list_lookup_insert_eq. assumption.
Qed.

Lemma cdvdCacheUpdate_other l m buf (C : list SectorInfo) (j : nat) :
  j <> Z.to_nat (cdvdSectorHash l m) ->
  cdvdCacheUpdate l m buf C !! j = C !! j.
Proof.
  intros Hne. unfold cdvdCacheUpdate.
  destruct (C !! Z.to_nat _); [| reflexivity].
  apply list_lookup_insert_ne. congruence.
Qed.

Lemma cdvdCacheUpdates_other ups (C : list SectorInfo) (j : nat) :
  Forall (fun u => Z.to_nat (cdvdSectorHash (fst (fst u)) (snd (fst u))) <> j) ups ->
  cdvdCacheUpdates ups C !! j = C !! j.
Proof.
  revert C. induction ups as [| u ups IH]; intros C Hall; [reflexivity |].
  inversion Hall as [| ? ? Hu Hrest]; subst.
  unfold cdvdCacheUpdates in *. simpl.
  rewrite IH by assumption.
  apply cdvdCacheUpdate_other. congruence.
Qed.

Lemma cdvdCacheFetch_hit l m out slot (C : list SectorInfo) :
  C !! Z.to_nat (cdvdSectorHash l m) = Some slot ->
  lsn slot = l -> mode slot = m ->
  cdvdCacheFetch l m out C = (true, memcpy out (data slot) BLOCK_BYTES).
Proof.
  intros Hslot Hl Hm. unfold cdvdCacheFetch. rewrite Hslot.
  rewrite Hl, Hm, !Z.eqb_refl. reflexivity.
Qed.

Lemma cdvdCacheFetch_miss l m out slot (C : list SectorInfo) :
  C !! Z.to_nat (cdvdSectorHash l m) = Some slot ->
  (lsn slot, mode slot) <> (l, m) ->
  cdvdCacheFetch l m out C = (false, out).
Proof.
  intros Hslot Hne. unfold cdvdCacheFetch. rewrite Hslot.
  destruct (Z.eqb_spec (lsn slot) l) as [El | Nl];
    destruct (Z.eqb_spec (mode slot) m) as [Em | Nm];
    simpl; try reflexivity.
  exfalso. apply Hne. congruence.
Qed.

Lemma cdvdCacheFetch_buffer_on_miss l m out (C : list SectorInfo) :
  fst (cdvdCacheFetch l m out C) = false -> snd (cdvdCacheFetch l m out C) = out.
Proof.
  unfold cdvdCacheFetch.
  destruct (C !! _) as [slot |]; [| reflexivity].
  destruct (_ && _); [discriminate | reflexivity].
Qed.

Lemma cdvdCacheUpdate_stores l m buf (C : list SectorInfo) :
  length C = Z.to_nat CacheSize ->
  cache_stores C (cdvdCacheUpdate l m buf C) l m buf.
Proof.
  intros HC. unfold cache_stores.
  destruct (cdvdCacheUpdate_same l m buf C HC) as (old & Hold & Hnew).
  split; [exists old; split; assumption |].
  split; [intros j Hj; apply cdvdCacheUpdate_other; exact Hj |].
  split.
  - intros out. rewrite (cdvdCacheFetch_hit l m out _ _ Hnew eq_refl eq_refl).
    reflexivity.
  - intros Hlen out. rewrite (cdvdCacheFetch_hit l m out _ _ Hnew eq_refl eq_refl).
    cbn [data]. rewrite memcpy_twice by exact Hlen. reflexivity.
Qed.

(** C4: after [cdvdCacheUpdate a m buf], and any further updates that
    all go to other slots, [cdvdCacheFetch a m] hits and hands back
    exactly [buf]; a fetch whose slot carries another (lsn, mode) tag
    misses and leaves the output buffer as it was. *)
Theorem cache_fetch_after_update
    (C : list SectorInfo) (a m : Z) (buf out : list char)
    (ups : list (Z * Z * list char)) :
  length C = Z.to_nat CacheSize ->
  length buf = Z.to_nat BLOCK_BYTES ->
  length out = Z.to_nat BLOCK_BYTES ->
  Forall (fun u => cdvdSectorHash (fst (fst u)) (snd (fst u)) <> cdvdSectorHash a m) ups ->
  cdvdCacheFetch a m out (cdvdCacheUpdates ups (cdvdCacheUpdate a m buf C)) = (true, buf)
  /\ (forall (C' : list SectorInfo) a' m' slot out',
        C' !! Z.to_nat (cdvdSectorHash a' m') = Some slot ->
        (lsn slot, mode slot) <> (a', m') ->
        cdvdCacheFetch a' m' out' C' = (false, out')).
Proof.
  intros HC Hbuf Hout Hups. split.
  - destruct (cdvdCacheUpdate_same a m buf C HC) as (old & _ & Hnew).
    erewrite cdvdCacheFetch_hit; cycle 1.
    + rewrite cdvdCacheUpdates_other; [exact Hnew |].
      eapply Forall_impl; [exact Hups |].
      intros u Hu Heq. apply Hu.
      pose proof (cdvdSectorHash_bound (fst (fst u)) (snd (fst u))).
      pose proof (cdvdSectorHash_bound a m). lia.
    + reflexivity.
    + reflexivity.
    + simpl. rewrite memcpy_twice by lia.
      rewrite memcpy_whole by assumption. reflexivity.
  - intros C' a' m' slot out' Hslot Hne.
    eapply cdvdCacheFetch_miss; eassumption.
Qed.

(** ** Alignment to the 16-sector block *)

Lemma align16_div a : Z.land a (Z.lnot 15) = 16 * (a / 16).
Proof.
  change 15 with (Z.ones 4).
  rewrite <- Z.ldiff_land, Z.ldiff_ones_r by lia.
  rewrite Z.shiftl_mul_pow2, Z.shiftr_div_pow2 by lia.
  change (2 ^ 4) with 16. lia.
Qed.

Lemma align16_le a : 0 <= a -> 0 <= 16 * (a / 16) <= a.
Proof.
  intros Ha. pose proof (Z.mul_div_le a 16).
  pose proof (Z.div_pos a 16). lia.
Qed.

Lemma align16_u32 a : is_u32 a -> Z.land a (to_u32 (Z.lnot 15)) = 16 * (a / 16).
Proof.
  intros Ha.
  change (to_u32 (Z.lnot 15)) with (Z.land (Z.lnot 15) (Z.ones 32)).
  rewrite Z.land_assoc, align16_div, Z.land_ones by lia.
  apply Z.mod_small. unfold is_u32 in Ha.
  pose proof (align16_le a). lia.
Qed.

Lemma align16_idem a : 16 * ((16 * (a / 16)) / 16) = 16 * (a / 16).
Proof. rewrite (Z.mul_comm 16 (a / 16)), Z.div_mul by lia. lia. Qed.

Lemma sample_modes_distinct : @modes_distinct sample_defs.
Proof.
  cbv [modes_distinct CDVD_MODE_2048 CDVD_MODE_2328 CDVD_MODE_2340
       CDVD_MODE_2352 sample_defs].
  apply (bool_decide_unpack _). vm_compute. exact I.
Qed.

Section Properties.

Context {Src : Type} {io : IOCtlSrc Src} {defs : CDVD_h}.

Lemma modes_distinct_neq :
  modes_distinct ->
  CDVD_MODE_2328 <> CDVD_MODE_2048 /\ CDVD_MODE_2340 <> CDVD_MODE_2048 /\
  CDVD_MODE_2352 <> CDVD_MODE_2048 /\ CDVD_MODE_2340 <> CDVD_MODE_2328 /\
  CDVD_MODE_2352 <> CDVD_MODE_2328 /\ CDVD_MODE_2352 <> CDVD_MODE_2340.
Proof.
  unfold modes_distinct.
  rewrite !NoDup_cons, !elem_of_cons, elem_of_nil.
  intuition congruence.
Qed.

(** ** Sector offsets *)

(** C5: once the request is fulfilled, [cdvdGetSector] on a sector of the
    block at [threadRequestInfo.lsn] points [2048 * d] bytes into the
    block buffer in mode 2048 and [2352 * d] in mode 2352, plus 24 in
    mode 2328 and plus 12 in mode 2340, where [d] is the sector's index
    in the block; with the block at 16, sector 18 is at [2352 * 2] in
    mode 2352 and at [2352 * 2 + 24] in mode 2328. *)
Theorem cdvdGetSector_offsets (s : State Src) (sector : Z) :
  modes_distinct ->
  threadRequestPending s = false ->
  lsn (threadRequestInfo s) <= sector < lsn (threadRequestInfo s) + 16 ->
  let blockAddress := lsn (threadRequestInfo s) in
  cdvdGetSector sector CDVD_MODE_2048 s = Some (2048 * (sector - blockAddress)) /\
  cdvdGetSector sector CDVD_MODE_2352 s = Some (2352 * (sector - blockAddress)) /\
  cdvdGetSector sector CDVD_MODE_2328 s = Some (2352 * (sector - blockAddress) + 24) /\
  cdvdGetSector sector CDVD_MODE_2340 s = Some (2352 * (sector - blockAddress) + 12) /\
  (blockAddress = 16 ->
   cdvdGetSector 18 CDVD_MODE_2352 s = Some (2352 * 2) /\
   cdvdGetSector 18 CDVD_MODE_2328 s = Some (2352 * 2 + 24)).
Proof.
  intros Hd Hp Hr blockAddress. subst blockAddress.
  destruct (modes_distinct_neq Hd) as (N1 & N2 & N3 & N4 & N5 & N6).
  unfold cdvdGetSector. rewrite Hp.
  rewrite Z.eqb_refl.
  rewrite (proj2 (Z.eqb_neq _ _) N1), (proj2 (Z.eqb_neq _ _) N2),
          (proj2 (Z.eqb_neq _ _) N3), (proj2 (Z.eqb_neq _ _) N4),
          (proj2 (Z.eqb_neq _ _) N5), (proj2 (Z.eqb_neq _ _) N6).
  rewrite !Z.eqb_refl.
  rewrite !to_s32_id by (unfold is_s32; lia).
  do 4 (split; [reflexivity |]).
  intros ->. rewrite to_s32_id by (unfold is_s32; lia).
  split; reflexivity.
Qed.

(** ** Requests *)

(** An accepted request, by the outcome of the cache lookup. *)
Lemma cdvdRequestSector_accepted (s : State Src) (address m : Z) :
  0 <= address < sector_count s ->
  let l := to_s32 (16 * (address / 16)) in
  let f := cdvdCacheFetch l m (data (threadRequestInfo s)) (Cache s) in
  cdvdRequestSector address m s =
  (0, mkState (prefetch s) (disc s) (Cache s) (negb (fst f))
              (mkSectorInfo l m (snd f)) (info s) (direct_data s)
              (cdvd_is_open s) (src s)
              (trace s ++ (if fst f then [] else [EvNotifyWorker]))).
Proof.
  intros Hr l f. subst f l.
  assert (Hcnt : sector_count s < 2 ^ 32).
  { unfold sector_count, to_u32. apply Z.mod_pos_bound. lia. }
  unfold cdvdRequestSector.
  destruct (Z.geb_spec address (sector_count s)) as [? | _]; [lia |].
  rewrite align16_u32 by (unfold is_u32; lia).
  destruct s as [pf dsc C pend req inf dd op bk t].
  cbn -[cdvdCacheFetch to_s32 Z.div Z.mul].
  destruct (cdvdCacheFetch _ m (data req) C) as [hit buf].
  destruct hit; cbn -[to_s32 Z.div Z.mul]; rewrite ?app_nil_r; reflexivity.
Qed.

(** C6, as the code has it: a request for an address below the sector
    count works on [address & ~15]: that is the address it stores in
    the pending slot and looks up in the cache; a request for an address
    at or beyond the count is refused before any alignment.  So the
    request equals the one for [address & ~15] exactly when it is not
    the case that [address & ~15 < count <= address]; the request for 17
    equals the one for 16 unless the disc has exactly 17 sectors. *)
Theorem cdvdRequestSector_aligned (s : State Src) (address m : Z) :
  0 <= address < 2 ^ 32 ->
  let aligned := Z.land address (Z.lnot 15) in
  let f := cdvdCacheFetch (to_s32 aligned) m (data (threadRequestInfo s)) (Cache s) in
  (address < sector_count s ->
   cdvdRequestSector address m s =
   (0, mkState (prefetch s) (disc s) (Cache s) (negb (fst f))
               (mkSectorInfo (to_s32 aligned) m (snd f)) (info s) (direct_data s)
               (cdvd_is_open s) (src s)
               (trace s ++ (if fst f then [] else [EvNotifyWorker])))) /\
  (sector_count s <= address -> cdvdRequestSector address m s = (-1, s)) /\
  (cdvdRequestSector address m s = cdvdRequestSector aligned m s <->
   ~ (aligned < sector_count s <= address)) /\
  (address = 17 -> sector_count s <> 17 ->
   cdvdRequestSector 17 m s = cdvdRequestSector 16 m s).
Proof.
  intros Hu aligned f.
  pose proof (align16_le address (proj1 Hu)) as Hle.
  assert (Hal : aligned = 16 * (address / 16)) by (apply align16_div).
  assert (Hin : address < sector_count s ->
                cdvdRequestSector address m s =
                (0, mkState (prefetch s) (disc s) (Cache s) (negb (fst f))
                      (mkSectorInfo (to_s32 aligned) m (snd f)) (info s) (direct_data s)
                      (cdvd_is_open s) (src s)
                      (trace s ++ (if fst f then [] else [EvNotifyWorker])))).
  { intros Hlt. subst f. rewrite Hal.
    apply (cdvdRequestSector_accepted s address m). lia. }
  assert (Hout : forall a, sector_count s <= a -> cdvdRequestSector a m s = (-1, s)).
  { intros a Ha. unfold cdvdRequestSector.
    destruct (Z.geb_spec a (sector_count s)); [reflexivity | lia]. }
  assert (Hal_in : aligned < sector_count s ->
                   cdvdRequestSector aligned m s =
                   (0, mkState (prefetch s) (disc s) (Cache s) (negb (fst f))
                         (mkSectorInfo (to_s32 aligned) m (snd f)) (info s) (direct_data s)
                         (cdvd_is_open s) (src s)
                         (trace s ++ (if fst f then [] else [EvNotifyWorker])))).
  { intros Hlt. subst f.
    rewrite (cdvdRequestSector_accepted s aligned m) by lia. cbv zeta.
    rewrite Hal, align16_idem. reflexivity. }
  assert (Hiff : cdvdRequestSector address m s = cdvdRequestSector aligned m s <->
                 ~ (aligned < sector_count s <= address)).
  { destruct (Z.lt_ge_cases address (sector_count s)) as [Hlt | Hge].
    - split; [intros _; lia |]. intros _.
      rewrite (Hin Hlt), (Hal_in ltac:(lia)). reflexivity.
    - destruct (Z.lt_ge_cases aligned (sector_count s)) as [Hlt' | Hge'].
      + split; [| intros Hn; exfalso; apply Hn; lia].
        intros Heq. rewrite (Hout address Hge), (Hal_in Hlt') in Heq.
        discriminate Heq.
      + split; [intros _; lia |]. intros _.
        rewrite (Hout address Hge), (Hout aligned Hge'). reflexivity. }
  split; [exact Hin |]. split; [apply Hout |]. split; [exact Hiff |].
  intros -> Hcount. apply Hiff.
  assert (H16 : aligned = 16) by reflexivity. lia.
Qed.

(** C8: a sector address at or beyond the sector count is refused with
    status -1 by [cdvdRequestSector] and by [cdvdDirectReadSector], and
    nothing else happens: the state, hence the pending flag, the cache
    and the list of backend reads and wake-ups, is the one before the
    call. *)
Theorem out_of_range_rejected (s : State Src) (sector m : Z) (buffer : list char) :
  sector_count s <= sector ->
  cdvdRequestSector sector m s = (-1, s) /\
  (is_s32 sector -> cdvdDirectReadSector sector m buffer s = (-1, Some buffer, s)).
Proof.
  intros Hge.
  assert (Hcnt : 0 <= sector_count s).
  { unfold sector_count, to_u32. apply Z.mod_pos_bound. lia. }
  split.
  - unfold cdvdRequestSector.
    destruct (Z.geb_spec sector (sector_count s)); [reflexivity | lia].
  - intros Hs. unfold cdvdDirectReadSector.
    rewrite to_u32_id by (unfold is_s32 in Hs; unfold is_u32; lia).
    destruct (Z.geb_spec sector (sector_count s)); [reflexivity | lia].
Qed.

(** ** Disc status *)

Lemma cb_count_app t1 t2 : cb_count (t1 ++ t2) = (cb_count t1 + cb_count t2)%nat.
Proof. unfold cb_count. rewrite List.filter_app, length_app. reflexivity. Qed.

(** What one status check does, by the four cases of media presence
    against the changed flag. *)
Lemma cdvdUpdateDiscStatus_spec (s : State Src) :
  let ready := fst (DiscReady (src s)) in
  let r := cdvdUpdateDiscStatus s in
  fst r = negb ready /\
  disc_has_changed (disc (snd r)) = negb ready /\
  src (snd r) = snd (DiscReady (src s)) /\
  trace (snd r) =
    trace s ++ (if Bool.eqb (disc_has_changed (disc s)) (negb ready)
                then [] else [EvNewDiscCB]) /\
  (Bool.eqb (disc_has_changed (disc s)) (negb ready) = true ->
   disc (snd r) = disc s /\ Cache (snd r) = Cache s) /\
  (disc_has_changed (disc s) = false -> ready = false ->
   curDiskType (disc (snd r)) = CDVD_TYPE_NODISC /\
   curTrayStatus (disc (snd r)) = CDVD_TRAY_OPEN /\
   Cache (snd r) = Cache s) /\
  (disc_has_changed (disc s) = true -> ready = true ->
   curTrayStatus (disc (snd r)) = CDVD_TRAY_CLOSE /\
   (strack (disc (snd r)), etrack (disc (snd r))) = ParseTOC (src (snd r)) /\
   Cache (snd r) = cdvdCacheReset (Cache s)).
Proof.
  unfold cdvdUpdateDiscStatus.
  destruct s as [pf d C pend req inf dd op b t]; cbn.
  destruct (DiscReady b) as [ready b'] eqn:Hready; cbn.
  destruct d as [chg ty tray cb st et]; cbn.
  destruct ready, chg; cbn;
    unfold cdvdRefreshData; cbn;
    try destruct (ParseTOC b') as [st' et'] eqn:Htoc; cbn;
    rewrite ?app_nil_r;
    repeat split; try reflexivity; try discriminate; intros; try discriminate.
  symmetry. exact Htoc.
Qed.

Lemma poll_cb_count (n : nat) : forall s : State Src,
  cb_count (trace (snd (poll n s))) =
  (cb_count (trace s) + transitions (disc_has_changed (disc s) :: fst (poll n s)))%nat.
Proof.
  induction n as [| k IH]; intros s.
  - cbn. lia.
  - cbn [poll].
    pose proof (cdvdUpdateDiscStatus_spec s) as (Hr & Hchg & _ & Htr & _).
    destruct (cdvdUpdateDiscStatus s) as [r s1]; cbn [fst snd] in *.
    specialize (IH s1).
    destruct (poll k s1) as [rs s2]; cbn [fst snd] in *.
    rewrite IH, Htr, cb_count_app, Hchg, <- Hr.
    cbn [transitions].
    destruct (Bool.eqb (disc_has_changed (disc s)) r); cbn; lia.
Qed.

(** C9: with [a1], [a2] the answers (media absent?) of two checks in a
    row: equal answers leave the trace and the disc state alone; from
    present to absent the flag is set, the type is no-disc, the tray is
    open and the callback is called once; from absent to present the
    flag is cleared, the TOC is read again, the cache is reset, the tray
    is closed and the callback is called once.  Over any further [n]
    checks the callback is called as many times as the presence value
    changes from one check to the next. *)
Theorem disc_change_notified_once_per_transition (s : State Src) (n : nat) :
  let c1 := cdvdUpdateDiscStatus s in
  let c2 := cdvdUpdateDiscStatus (snd c1) in
  let p := poll n (snd c1) in
  (fst c2 = fst c1 ->
   trace (snd c2) = trace (snd c1) /\ disc (snd c2) = disc (snd c1)) /\
  (fst c1 = false -> fst c2 = true ->
   trace (snd c2) = trace (snd c1) ++ [EvNewDiscCB] /\
   disc_has_changed (disc (snd c2)) = true /\
   curDiskType (disc (snd c2)) = CDVD_TYPE_NODISC /\
   curTrayStatus (disc (snd c2)) = CDVD_TRAY_OPEN) /\
  (fst c1 = true -> fst c2 = false ->
   trace (snd c2) = trace (snd c1) ++ [EvNewDiscCB] /\
   disc_has_changed (disc (snd c2)) = false /\
   curTrayStatus (disc (snd c2)) = CDVD_TRAY_CLOSE /\
   (strack (disc (snd c2)), etrack (disc (snd c2))) = ParseTOC (src (snd c2)) /\
   Cache (snd c2) = cdvdCacheReset (Cache (snd c1))) /\
  cb_count (trace (snd p)) =
  (cb_count (trace (snd c1)) + transitions (fst c1 :: fst p))%nat.
Proof.
  intros c1 c2 p.
  pose proof (cdvdUpdateDiscStatus_spec s) as (Hr1 & Hchg1 & _).
  pose proof (cdvdUpdateDiscStatus_spec (snd c1))
    as (Hr2 & Hchg2 & _ & Htr2 & Hsame & Hgone & Hback).
  fold c1 in Hr1, Hchg1. fold c2 in Hr2, Hchg2, Htr2, Hsame, Hgone, Hback.
  cbv zeta in *.
  rewrite <- Hr1 in Hchg1. rewrite Hchg1 in Htr2, Hsame, Hgone, Hback.
  rewrite <- Hr2 in Htr2, Hsame, Hchg2.
  repeat apply conj.
  - intros Heq. rewrite Heq, eqb_reflx in Htr2, Hsame.
    rewrite app_nil_r in Htr2. split; [exact Htr2 | apply Hsame; reflexivity].
  - intros H1 H2. rewrite H1, H2 in *. cbn in Htr2.
    destruct Hgone as (Hty & Htray & _).
    + reflexivity.
    + destruct (fst (DiscReady (src (snd c1)))); [discriminate | reflexivity].
    + auto.
  - intros H1 H2. rewrite H1, H2 in *. cbn in Htr2.
    destruct Hback as (Htray & Htoc & Hcache).
    + reflexivity.
    + destruct (fst (DiscReady (src (snd c1)))); [reflexivity | discriminate].
    + auto.
  - subst p. rewrite poll_cb_count, Hchg1. reflexivity.
Qed.

(** ** The retry loop *)

Lemma read_once_event l m count buf (b : Src) :
  is_read_at l (snd (read_once l m count buf b)).
Proof.
  unfold read_once, is_read_at.
  destruct (m =? CDVD_MODE_2048).
  - destruct (ReadSectors2048 l count buf b) as [[ok buf'] b']. cbn. auto.
  - destruct (ReadSectors2352 l count buf b) as [[ok buf'] b']. cbn. auto.
Qed.

Lemma after_attempts_shift k l m count buf (b : Src) :
  after_attempts (S k) l m count buf b =
  after_attempts k l m count
    (snd (fst (fst (read_once l m count buf b))))
    (snd (fst (read_once l m count buf b))).
Proof.
  induction k as [| j IH].
  - cbn. destruct (read_once l m count buf b) as [[[ok buf'] b'] e]. reflexivity.
  - change (after_attempts (S (S j)) l m count buf b)
      with (let '(buf', b') := after_attempts (S j) l m count buf b in
            let '(_, buf'', b'', _) := read_once l m count buf' b' in (buf'', b'')).
    rewrite IH. reflexivity.
Qed.

Lemma attempt_ok_shift k l m count buf (b : Src) :
  attempt_ok (S k) l m count buf b =
  attempt_ok k l m count
    (snd (fst (fst (read_once l m count buf b))))
    (snd (fst (read_once l m count buf b))).
Proof. unfold attempt_ok. rewrite after_attempts_shift. reflexivity. Qed.

(** The loop makes [k] calls, [1 <= k <= n]: the first [k - 1] fail and
    the last one succeeds, unless all [n] tries are used up; it ends
    with the buffer and the backend those [k] calls leave behind. *)
Lemma read_tries_char (n : nat) : forall l m count buf (b : Src),
  (0 < n)%nat ->
  exists k : nat,
    (1 <= k <= n)%nat /\
    fst (read_tries n l m count buf b) = after_attempts k l m count buf b /\
    length (snd (read_tries n l m count buf b)) = k /\
    Forall (is_read_at l) (snd (read_tries n l m count buf b)) /\
    (forall j, (S j < k)%nat -> attempt_ok j l m count buf b = false) /\
    (attempt_ok (k - 1) l m count buf b = true \/ k = n).
Proof.
  induction n as [| n' IH]; intros l m count buf b Hn; [lia |].
  pose proof (read_once_event l m count buf b) as He.
  cbn [read_tries].
  destruct (read_once l m count buf b) as [[[ok buf1] b1] e] eqn:Hone.
  cbn [snd] in He.
  assert (H0 : attempt_ok 0 l m count buf b = ok).
  { unfold attempt_ok. cbn. rewrite Hone. reflexivity. }
  destruct ok.
  - exists 1%nat. cbn. rewrite Hone.
    repeat split; try lia; auto.
  - destruct n' as [| n''].
    + exists 1%nat. cbn. rewrite Hone.
      repeat split; try lia; auto.
    + destruct (IH l m count buf1 b1 ltac:(lia))
        as (k & Hk & Hres & Hlen & Hall & Hfail & Hlast).
      destruct (read_tries (S n'') l m count buf1 b1) as [[buf2 b2] es].
      cbn [fst snd] in *.
      exists (S k). repeat split; try lia.
      * rewrite after_attempts_shift, Hone. exact Hres.
      * cbn. lia.
      * constructor; assumption.
      * intros [| j] Hj; [exact H0 |].
        rewrite attempt_ok_shift, Hone. apply Hfail. lia.
      * destruct Hlast as [Hok | ->]; [left | right; reflexivity].
        destruct k as [| k']; [lia |].
        replace (S (S k') - 1)%nat with (S k') by lia.
        replace (S k' - 1)%nat with k' in Hok by lia.
        rewrite attempt_ok_shift, Hone. exact Hok.
Qed.

Lemma cdvdThread_service_request (s : State Src) :
  threadRequestPending s = true ->
  let i := threadRequestInfo s in
  let w := read_tries 4 (lsn i) (mode i) (block_count (lsn i) s) (data i) (src s) in
  let done := mkSectorInfo (lsn i) (mode i) (fst (fst w)) in
  cdvdThread_service s =
  mkState (mkPrefetch (lsn i) (mode i) prefetch_max_blocks) (disc s)
          (cdvdCacheUpdate (lsn i) (mode i) (fst (fst w)) (Cache s))
          false done done (direct_data s) (cdvd_is_open s) (snd (fst w))
          ((trace s ++ snd w) ++ [EvNotifyRequest]).
Proof.
  intros Hp i w done. subst done w i.
  destruct s as [pf dsc C pend req inf dd op bk t].
  cbn in Hp. subst pend.
  unfold cdvdThread_service, block_count, sector_count. cbn -[read_tries].
  destruct (read_tries 4 _ _ _ _ _) as [[buf' b'] es]. reflexivity.
Qed.

Lemma cdvdDirectReadSector_miss (s : State Src) (first m : Z) (buffer : list char) :
  to_u32 first < sector_count s ->
  let sector := Z.land first (Z.lnot 15) in
  fst (cdvdCacheFetch sector m (direct_data s) (Cache s)) = false ->
  let d := read_tries 4 sector m (block_count sector s) (direct_data s) (src s) in
  let s' :=
    mkState (prefetch s) (disc s)
            (cdvdCacheUpdate sector m (fst (fst d)) (Cache s))
            (threadRequestPending s) (threadRequestInfo s) (info s)
            (fst (fst d)) (cdvd_is_open s) (snd (fst d)) (trace s ++ snd d) in
  cdvdDirectReadSector first m buffer s =
  (0, memcpy_from buffer (fst (fst d))
        (fst (direct_copy_range first sector m))
        (snd (direct_copy_range first sector m)), s').
Proof.
  intros Hin sector Hmiss d s'. subst s' d.
  unfold cdvdDirectReadSector.
  destruct (Z.geb_spec (to_u32 first) (sector_count s)) as [? | _]; [lia |].
  fold sector.
  pose proof (cdvdCacheFetch_buffer_on_miss sector m (direct_data s) (Cache s) Hmiss)
    as Hbuf.
  destruct (cdvdCacheFetch sector m (direct_data s) (Cache s)) as [hit out].
  cbn [fst snd] in Hmiss, Hbuf. subst hit out. cbn [negb].
  destruct s as [pf dsc C pend req inf dd op bk t].
  unfold block_count, sector_count. cbn -[read_tries direct_copy_range].
  destruct (read_tries 4 _ _ _ _ _) as [[buf' b'] es]. cbn -[direct_copy_range].
  destruct (direct_copy_range first sector m) as [off n]. reflexivity.
Qed.

Lemma cdvdThread_service_prefetch (s : State Src) :
  threadRequestPending s = false ->
  prefetch_left (prefetch s) <> 0 ->
  let p := prefetch s in
  let l := prefetch_last_lba p in
  let m := prefetch_last_mode p in
  let w := read_tries 4 l m (block_count l s) (data (info s)) (src s) in
  cdvdThread_service s =
  mkState (mkPrefetch (to_s32 (l + 16)) m (to_s32 (prefetch_left p - 1))) (disc s)
          (cdvdCacheUpdate l m (fst (fst w)) (Cache s))
          false (threadRequestInfo s) (mkSectorInfo l m (fst (fst w)))
          (direct_data s) (cdvd_is_open s) (snd (fst w)) (trace s ++ snd w).
Proof.
  intros Hp Hleft p l m w. subst w m l p.
  destruct s as [pf dsc C pend req inf dd op bk t].
  cbn in Hp, Hleft. subst pend.
  unfold cdvdThread_service, block_count, sector_count. cbn -[read_tries].
  destruct (Z.eqb_spec (prefetch_left pf) 0) as [? | _]; [contradiction |].
  cbn -[read_tries].
  destruct (read_tries 4 _ _ _ _ _) as [[buf' b'] es]. reflexivity.
Qed.

(** C7: the read of a block is tried at most four times, in the worker
    (for a request and for a prefetch alike) and in
    [cdvdDirectReadSector], and the first success ends the loop: [k]
    calls are made, [1 <= k <= 4], the first [k - 1] fail, the last
    succeeds or [k = 4]; so three failures and a success give the block
    of the fourth call.  Whatever the outcome, the worker writes the
    buffer into the cache slot of the block, where a fetch finds it,
    and for a request also into the pending slot, clears the pending
    flag and signals completion; the direct read writes the buffer into
    the cache slot and returns 0. *)
Theorem read_retried_at_most_four_times
    (s : State Src) (l m count first : Z) (buf buffer : list char) (b : Src) :
  let rt := read_tries 4 l m count buf b in
  (exists k : nat,
     (1 <= k <= 4)%nat /\
     fst rt = after_attempts k l m count buf b /\
     length (snd rt) = k /\
     Forall (is_read_at l) (snd rt) /\
     (forall j, (S j < k)%nat -> attempt_ok j l m count buf b = false) /\
     (attempt_ok (k - 1) l m count buf b = true \/ k = 4%nat)) /\
  (attempt_ok 0 l m count buf b = false ->
   attempt_ok 1 l m count buf b = false ->
   attempt_ok 2 l m count buf b = false ->
   attempt_ok 3 l m count buf b = true ->
   fst rt = after_attempts 4 l m count buf b /\ length (snd rt) = 4%nat) /\
  (threadRequestPending s = true ->
   let i := threadRequestInfo s in
   let w := read_tries 4 (lsn i) (mode i) (block_count (lsn i) s) (data i) (src s) in
   let done := mkSectorInfo (lsn i) (mode i) (fst (fst w)) in
   cdvdThread_service s =
   mkState (mkPrefetch (lsn i) (mode i) prefetch_max_blocks) (disc s)
           (cdvdCacheUpdate (lsn i) (mode i) (fst (fst w)) (Cache s))
           false done done (direct_data s) (cdvd_is_open s) (snd (fst w))
           ((trace s ++ snd w) ++ [EvNotifyRequest])) /\
  (to_u32 first < sector_count s ->
   let sector := Z.land first (Z.lnot 15) in
   fst (cdvdCacheFetch sector m (direct_data s) (Cache s)) = false ->
   let d := read_tries 4 sector m (block_count sector s) (direct_data s) (src s) in
   let s' :=
     mkState (prefetch s) (disc s)
             (cdvdCacheUpdate sector m (fst (fst d)) (Cache s))
             (threadRequestPending s) (threadRequestInfo s) (info s)
             (fst (fst d)) (cdvd_is_open s) (snd (fst d)) (trace s ++ snd d) in
   cdvdDirectReadSector first m buffer s =
   (0, memcpy_from buffer (fst (fst d))
         (fst (direct_copy_range first sector m))
         (snd (direct_copy_range first sector m)), s')) /\
  (threadRequestPending s = true ->
   length (Cache s) = Z.to_nat CacheSize ->
   cache_stores (Cache s) (Cache (cdvdThread_service s))
     (lsn (threadRequestInfo s)) (mode (threadRequestInfo s))
     (data (threadRequestInfo (cdvdThread_service s)))) /\
  (threadRequestPending s = false ->
   prefetch_left (prefetch s) <> 0 ->
   let p := prefetch s in
   let a := read_tries 4 (prefetch_last_lba p) (prefetch_last_mode p)
              (block_count (prefetch_last_lba p) s) (data (info s)) (src s) in
   cdvdThread_service s =
   mkState (mkPrefetch (to_s32 (prefetch_last_lba p + 16)) (prefetch_last_mode p)
                       (to_s32 (prefetch_left p - 1)))
           (disc s)
           (cdvdCacheUpdate (prefetch_last_lba p) (prefetch_last_mode p)
                            (fst (fst a)) (Cache s))
           false (threadRequestInfo s)
           (mkSectorInfo (prefetch_last_lba p) (prefetch_last_mode p) (fst (fst a)))
           (direct_data s) (cdvd_is_open s) (snd (fst a)) (trace s ++ snd a) /\
   (length (Cache s) = Z.to_nat CacheSize ->
    cache_stores (Cache s) (Cache (cdvdThread_service s))
      (prefetch_last_lba p) (prefetch_last_mode p) (fst (fst a)))) /\
  (to_u32 first < sector_count s ->
   fst (cdvdCacheFetch (Z.land first (Z.lnot 15)) m (direct_data s) (Cache s)) = false ->
   length (Cache s) = Z.to_nat CacheSize ->
   let s' := snd (cdvdDirectReadSector first m buffer s) in
   cache_stores (Cache s) (Cache s') (Z.land first (Z.lnot 15)) m (direct_data s')).
Proof.
  intros rt.
  destruct (read_tries_char 4 l m count buf b ltac:(lia))
    as (k & Hk & Hres & Hlen & Hall & Hfail & Hlast).
  fold rt in Hres, Hlen, Hall.
  repeat apply conj.
  - exists k. do 5 (split; [assumption |]). assumption.
  - intros F0 F1 F2 S3.
    assert (k = 4%nat) as ->.
    { destruct Hlast as [Hok | ?]; [| assumption].
      destruct k as [| [| [| [| k']]]]; try lia.
      - change (1 - 1)%nat with 0%nat in Hok. congruence.
      - change (2 - 1)%nat with 1%nat in Hok. congruence.
      - change (3 - 1)%nat with 2%nat in Hok. congruence. }
    auto.
  - apply cdvdThread_service_request.
  - apply cdvdDirectReadSector_miss.
  - intros Hp HC. rewrite (cdvdThread_service_request s Hp).
    cbn [Cache threadRequestInfo data].
    apply cdvdCacheUpdate_stores. exact HC.
  - intros Hp Hleft p a. split.
    + apply (cdvdThread_service_prefetch s Hp Hleft).
    + intros HC. rewrite (cdvdThread_service_prefetch s Hp Hleft). cbn [Cache].
      apply cdvdCacheUpdate_stores. exact HC.
  - intros Hin Hmiss HC s'. subst s'.
    rewrite (cdvdDirectReadSector_miss s first m buffer Hin Hmiss).
    cbn [snd Cache direct_data].
    apply cdvdCacheUpdate_stores. exact HC.
Qed.

(** ** The worker loop *)

(** With the medium present and unchanged and the thread open, a pass
    of the loop body is the wait followed by the service part. *)
Lemma cdvdThread_body_present (s : State Src) :
  fst (DiscReady (src s)) = true ->
  disc_has_changed (disc s) = false ->
  cdvd_is_open s = true ->
  cdvdThread_body s =
  cdvdThread_service
    (emit (EvWait (if prefetch_left (prefetch s) =? 0 then 250 else 1))
          (set_src (snd (DiscReady (src s))) s)).
Proof.
  intros Hready Hchg Hopen.
  destruct s as [pf d C pend req inf dd op b t].
  cbn in Hready, Hchg, Hopen. subst op.
  unfold cdvdThread_body, cdvdUpdateDiscStatus. cbn.
  destruct (DiscReady b) as [ready b']. cbn in Hready. subst ready.
  cbn. rewrite Hchg. reflexivity.
Qed.

(** ** Prefetch *)

Lemma cdvdThread_service_idle (s : State Src) :
  threadRequestPending s = false ->
  prefetch_left (prefetch s) = 0 ->
  cdvdThread_service s =
  set_info (mkSectorInfo (prefetch_last_lba (prefetch s))
                         (prefetch_last_mode (prefetch s)) (data (info s))) s.
Proof.
  intros Hp Hleft.
  destruct s as [pf dsc C pend req inf dd op bk t].
  cbn in Hp, Hleft. subst pend.
  unfold cdvdThread_service. cbn. rewrite Hleft. reflexivity.
Qed.

Lemma read_tries_4_events l m count buf (b : Src) :
  snd (read_tries 4 l m count buf b) <> [] /\
  Forall (is_read_at l) (snd (read_tries 4 l m count buf b)).
Proof.
  destruct (read_tries_char 4 l m count buf b ltac:(lia))
    as (k & Hk & _ & Hlen & Hall & _).
  split; [| exact Hall].
  intros Hnil. rewrite Hnil in Hlen. cbn in Hlen. lia.
Qed.

Lemma cdvdThread_service_Cache_length (s : State Src) :
  length (Cache (cdvdThread_service s)) = length (Cache s).
Proof.
  destruct (threadRequestPending s) eqn:Hp.
  - rewrite (cdvdThread_service_request s Hp). cbn.
    apply cdvdCacheUpdate_length.
  - destruct (Z.eq_dec (prefetch_left (prefetch s)) 0) as [H0 | Hn].
    + rewrite (cdvdThread_service_idle s Hp H0). reflexivity.
    + rewrite (cdvdThread_service_prefetch s Hp Hn). cbn.
      apply cdvdCacheUpdate_length.
Qed.

(** After the request for block [A] is fulfilled, [k] passes of the
    worker without a new request leave the prefetch at [A + 16 * k]
    with budget [16 - k]. *)
Lemma prefetch_after_passes (s : State Src) (k : nat) :
  threadRequestPending s = true ->
  let A := lsn (threadRequestInfo s) in
  - 2 ^ 31 <= A -> A + 256 < 2 ^ 31 ->
  (k <= 16)%nat ->
  let sk := service_passes k (cdvdThread_service s) in
  prefetch sk = mkPrefetch (A + 16 * Z.of_nat k) (mode (threadRequestInfo s))
                           (16 - Z.of_nat k) /\
  threadRequestPending sk = false /\
  length (Cache sk) = length (Cache s).
Proof.
  intros Hp A Hlo Hhi. induction k as [| j IH]; intros Hk sk; subst sk.
  - cbn [service_passes]. rewrite (cdvdThread_service_request s Hp). cbn.
    rewrite cdvdCacheUpdate_length.
    repeat split. f_equal. subst A. lia.
  - cbn [service_passes]. destruct (IH ltac:(lia)) as (Hpf & Hpend & Hlen).
    set (sj := service_passes j (cdvdThread_service s)) in *.
    assert (Hleft : prefetch_left (prefetch sj) <> 0) by (rewrite Hpf; cbn; lia).
    rewrite cdvdThread_service_Cache_length.
    rewrite (cdvdThread_service_prefetch sj Hpend Hleft). cbn.
    rewrite Hpf. cbn.
    rewrite !to_s32_id by (unfold is_s32; lia).
    repeat split; [f_equal; lia | exact Hlen].
Qed.

(** C1, as the code behaves: once the request for block [A] is
    fulfilled the prefetch holds [A] with budget 16, and pass number
    [k + 1] of the worker (counting from [k = 0]) reads block
    [A + 16 * k], stores it in the cache under that address, and moves
    the prefetch to [A + 16 * (k + 1)] with budget [15 - k].  So the
    first read after the fulfilment is of block [A] again, and the 16
    reads are of [A], [A + 16], ..., [A + 240]; after them the budget
    is 0 and a pass reads nothing. *)
Theorem prefetch_reads_start_at_served_block (s : State Src) (k : nat) :
  threadRequestPending s = true ->
  - 2 ^ 31 <= lsn (threadRequestInfo s) ->
  lsn (threadRequestInfo s) + 256 < 2 ^ 31 ->
  length (Cache s) = Z.to_nat CacheSize ->
  (k < 16)%nat ->
  let A := lsn (threadRequestInfo s) in
  let m := mode (threadRequestInfo s) in
  let s1 := cdvdThread_service s in
  let sk := service_passes k s1 in
  let sk' := cdvdThread_service sk in
  let s16 := service_passes 16 s1 in
  prefetch s1 = mkPrefetch A m 16 /\
  threadRequestPending s1 = false /\
  (exists es, es <> [] /\ trace sk' = trace sk ++ es /\
              Forall (is_read_at (A + 16 * Z.of_nat k)) es) /\
  (exists slot, Cache sk' !! Z.to_nat (cdvdSectorHash (A + 16 * Z.of_nat k) m) = Some slot /\
                lsn slot = A + 16 * Z.of_nat k /\ mode slot = m) /\
  prefetch sk' = mkPrefetch (A + 16 * (Z.of_nat k + 1)) m (15 - Z.of_nat k) /\
  (exists es, es <> [] /\ trace (cdvdThread_service s1) = trace s1 ++ es /\
              Forall (is_read_at A) es) /\
  prefetch_left (prefetch s16) = 0 /\
  trace (cdvdThread_service s16) = trace s16.
Proof.
  intros Hp Hlo Hhi HC Hk A m s1 sk sk' s16.
  destruct (prefetch_after_passes s 0 Hp Hlo Hhi ltac:(lia)) as (Hpf0 & Hpend0 & Hlen0).
  destruct (prefetch_after_passes s k Hp Hlo Hhi ltac:(lia)) as (Hpfk & Hpendk & Hlenk).
  destruct (prefetch_after_passes s (S k) Hp Hlo Hhi ltac:(lia)) as (HpfS & _ & _).
  destruct (prefetch_after_passes s 16 Hp Hlo Hhi ltac:(lia)) as (Hpf16 & Hpend16 & _).
  cbn [service_passes] in Hpf0, Hpend0, Hlen0, HpfS.
  fold s1 in Hpf0, Hpend0, Hlen0, Hpfk, Hpendk, Hlenk, HpfS, Hpf16, Hpend16.
  fold sk in Hpfk, Hpendk, Hlenk, HpfS. fold sk' in HpfS.
  fold s16 in Hpf16, Hpend16. fold A in Hpf0, Hpfk, HpfS, Hpf16.
  fold m in Hpf0, Hpfk, HpfS, Hpf16.
  assert (Hleftk : prefetch_left (prefetch sk) <> 0) by (rewrite Hpfk; cbn; lia).
  assert (Hstep : forall s' : State Src,
            threadRequestPending s' = false ->
            prefetch_left (prefetch s') <> 0 ->
            exists es, es <> [] /\
              trace (cdvdThread_service s') = trace s' ++ es /\
              Forall (is_read_at (prefetch_last_lba (prefetch s'))) es).
  { intros s' Hpend Hleft.
    rewrite (cdvdThread_service_prefetch s' Hpend Hleft). cbn.
    eexists. split; [| split; [reflexivity |]]; apply read_tries_4_events. }
  repeat apply conj.
  - rewrite Hpf0. f_equal. lia.
  - exact Hpend0.
  - destruct (Hstep sk Hpendk Hleftk) as (es & Hne & Htr & Hall).
    rewrite Hpfk in Hall. exists es. auto.
  - unfold sk'. rewrite (cdvdThread_service_prefetch sk Hpendk Hleftk). cbn.
    rewrite Hpfk. cbn.
    destruct (cdvdCacheUpdate_same (A + 16 * Z.of_nat k) m
                (fst (fst (read_tries 4 (A + 16 * Z.of_nat k) m
                   (block_count (A + 16 * Z.of_nat k) sk) (data (info sk)) (src sk))))
                (Cache sk)) as (old & _ & Hnew).
    { rewrite Hlenk. exact HC. }
    eexists. split; [exact Hnew | split; reflexivity].
  - rewrite HpfS. f_equal; lia.
  - destruct (Hstep s1 Hpend0) as (es & Hne & Htr & Hall).
    { rewrite Hpf0. cbn. lia. }
    rewrite Hpf0 in Hall. cbn in Hall.
    replace (A + 16 * Z.of_nat 0) with A in Hall by lia.
    exists es. auto.
  - rewrite Hpf16. reflexivity.
  - rewrite (cdvdThread_service_idle s16 Hpend16); [reflexivity |].
    rewrite Hpf16. reflexivity.
Qed.

(** ** Direct reads *)

Lemma block_index first :
  0 <= first -> first - Z.land first (Z.lnot 15) = first mod 16.
Proof. intros _. rewrite align16_div. pose proof (Z.div_mod first 16). lia. Qed.

Lemma block_index_bound first :
  0 <= first - Z.land first (Z.lnot 15) < 16.
Proof.
  rewrite align16_div. pose proof (Z.div_mod first 16 ltac:(lia)).
  pose proof (Z.mod_pos_bound first 16). lia.
Qed.

(** An accepted direct read returns 0 and copies the range
    [direct_copy_range] of the scratch buffer as it stands then. *)
Lemma cdvdDirectReadSector_copy (s : State Src) (first m : Z) (buffer : list char) :
  to_u32 first < sector_count s ->
  let r := cdvdDirectReadSector first m buffer s in
  let rg := direct_copy_range first (Z.land first (Z.lnot 15)) m in
  fst (fst r) = 0 /\
  snd (fst r) = memcpy_from buffer (direct_data (snd r)) (fst rg) (snd rg).
Proof.
  intros Hin r rg. subst r rg.
  unfold cdvdDirectReadSector.
  destruct (Z.geb_spec (to_u32 first) (sector_count s)) as [? | _]; [lia |].
  destruct (cdvdCacheFetch _ m (direct_data s) (Cache s)) as [hit out].
  destruct (direct_copy_range first _ m) as [off n].
  destruct hit; cbn -[read_tries].
  - split; reflexivity.
  - destruct (read_tries 4 _ _ _ _ _) as [[buf' b'] es]. split; reflexivity.
Qed.

Lemma direct_copy_range_modes (first : Z) :
  modes_distinct ->
  let sector := Z.land first (Z.lnot 15) in
  let d := first - sector in
  direct_copy_range first sector CDVD_MODE_2048 = (2048 * d, 2048) /\
  direct_copy_range first sector CDVD_MODE_2328 = (2352 * d + 24, 2328) /\
  direct_copy_range first sector CDVD_MODE_2340 = (2352 * d + 12, 2340) /\
  direct_copy_range first sector CDVD_MODE_2352 = (2352 * d + 12, 2352).
Proof.
  intros Hd sector d. subst d sector.
  destruct (modes_distinct_neq Hd) as (N1 & N2 & N3 & N4 & N5 & N6).
  pose proof (block_index_bound first) as Hb.
  unfold direct_copy_range.
  rewrite !Z.eqb_refl.
  rewrite (proj2 (Z.eqb_neq _ _) N1), (proj2 (Z.eqb_neq _ _) N2),
          (proj2 (Z.eqb_neq _ _) N3), (proj2 (Z.eqb_neq _ _) N4),
          (proj2 (Z.eqb_neq _ _) N5), (proj2 (Z.eqb_neq _ _) N6).
  rewrite ?Z.eqb_refl.
  rewrite !to_s32_id by (unfold is_s32; lia).
  repeat split.
Qed.

(** C2, as the code behaves: in mode 2352 an accepted direct read
    returns 0 and copies 2352 bytes that start 12 bytes after the
    sector's offset [2352 * (first - (first & ~15))] in the block. *)
Theorem direct_read_2352_starts_12_bytes_in
    (s : State Src) (first : Z) (buffer : list char) :
  modes_distinct ->
  0 <= first < sector_count s ->
  first < 2 ^ 31 ->
  let r := cdvdDirectReadSector first CDVD_MODE_2352 buffer s in
  let d := first - Z.land first (Z.lnot 15) in
  fst (fst r) = 0 /\
  snd (fst r) = memcpy_from buffer (direct_data (snd r)) (2352 * d + 12) 2352 /\
  (d < 15 ->
   length (direct_data (snd r)) = Z.to_nat BLOCK_BYTES ->
   length buffer = 2352%nat ->
   snd (fst r) =
   Some (take 2352 (drop (Z.to_nat (2352 * d + 12)) (direct_data (snd r))))).
Proof.
  intros Hd Hin Hs r d.
  assert (Hcnt : sector_count s < 2 ^ 32).
  { unfold sector_count, to_u32. apply Z.mod_pos_bound. lia. }
  destruct (cdvdDirectReadSector_copy s first CDVD_MODE_2352 buffer) as (H0 & Hcopy).
  { rewrite to_u32_id by (unfold is_u32; lia). lia. }
  destruct (direct_copy_range_modes first Hd) as (_ & _ & _ & Hrg).
  cbv zeta in Hrg. rewrite Hrg in Hcopy. cbn [fst snd] in Hcopy.
  fold r in H0, Hcopy. fold d in Hcopy.
  split; [exact H0 |]. split; [exact Hcopy |].
  intros Hlt Hlen Hbuf. rewrite Hcopy.
  pose proof (block_index_bound first) as Hb. fold d in Hb.
  unfold memcpy_from. rewrite Hlen.
  destruct (Z.leb_spec 0 (2352 * d + 12)) as [_ | ?]; [| lia].
  destruct (Z.leb_spec (2352 * d + 12 + 2352) (Z.of_nat (Z.to_nat BLOCK_BYTES)))
    as [_ | Hbad]; [| unfold BLOCK_BYTES in Hbad; lia].
  cbn [andb]. unfold memcpy.
  change (Z.to_nat 2352) with 2352%nat.
  rewrite (drop_ge buffer) by lia. rewrite app_nil_r. reflexivity.
Qed.

(** C10, as the code behaves: the copies of modes 2048, 2328 and 2340
    stay inside the 16 * 2352 bytes of the scratch buffer, but for the
    last sector of a block in mode 2352 the source range is
    [2352 * 15 + 12 .. 16 * 2352 + 12) and leaves the buffer by 12
    bytes. *)
Theorem direct_read_2352_overruns_block
    (s : State Src) (first : Z) (buffer : list char) :
  modes_distinct ->
  0 <= first < sector_count s ->
  first < 2 ^ 31 ->
  first - Z.land first (Z.lnot 15) = 15 ->
  length (direct_data (snd (cdvdDirectReadSector first CDVD_MODE_2352 buffer s)))
  = Z.to_nat BLOCK_BYTES ->
  let sector := Z.land first (Z.lnot 15) in
  let rg := direct_copy_range first sector CDVD_MODE_2352 in
  rg = (2352 * 15 + 12, 2352) /\
  fst rg + snd rg = BLOCK_BYTES + 12 /\
  snd (fst (cdvdDirectReadSector first CDVD_MODE_2352 buffer s)) = None /\
  (forall first' m,
     m = CDVD_MODE_2048 \/ m = CDVD_MODE_2328 \/ m = CDVD_MODE_2340 ->
     let rg' := direct_copy_range first' (Z.land first' (Z.lnot 15)) m in
     0 <= fst rg' /\ fst rg' + snd rg' <= BLOCK_BYTES).
Proof.
  intros Hd Hin Hs H15 Hlen sector rg.
  assert (Hcnt : sector_count s < 2 ^ 32).
  { unfold sector_count, to_u32. apply Z.mod_pos_bound. lia. }
  destruct (cdvdDirectReadSector_copy s first CDVD_MODE_2352 buffer) as (_ & Hcopy).
  { rewrite to_u32_id by (unfold is_u32; lia). lia. }
  destruct (direct_copy_range_modes first Hd) as (_ & _ & _ & Hrg).
  cbv zeta in Hrg. rewrite H15 in Hrg. fold sector in Hrg. fold rg in Hrg.
  fold sector in Hcopy. fold rg in Hcopy.
  repeat apply conj.
  - exact Hrg.
  - rewrite Hrg. reflexivity.
  - rewrite Hcopy, Hrg. unfold memcpy_from. cbn [fst snd].
    rewrite Hlen. reflexivity.
  - intros first' m Hm rg'. subst rg'.
    destruct (direct_copy_range_modes first' Hd) as (R1 & R2 & R3 & _).
    cbv zeta in R1, R2, R3.
    pose proof (block_index_bound first') as Hb.
    unfold BLOCK_BYTES.
    destruct Hm as [-> | [-> | ->]];
      [rewrite R1 | rewrite R2 | rewrite R3]; cbn [fst snd]; lia.
Qed.

End Properties.

(** * The properties on concrete inputs *)

Lemma zero_block_length : length zero_block = Z.to_nat BLOCK_BYTES.
Proof. unfold zero_block. apply length_replicate. Qed.

Lemma sample_block_length l : length (sample_block l) = Z.to_nat BLOCK_BYTES.
Proof.
  unfold sample_block.
  rewrite length_concat, fmap_replicate, sum_list_replicate.
  reflexivity.
Qed.

Lemma fresh_cache_length : length fresh_cache = Z.to_nat CacheSize.
Proof.
  unfold fresh_cache, cdvdCacheReset.
  rewrite length_map, length_replicate. reflexivity.
Qed.

Lemma cache_fetch_after_update_witness :
  cdvdCacheFetch 16 CDVD_MODE_2048 zero_block
    (cdvdCacheUpdates [(32, CDVD_MODE_2048, zero_block)]
       (cdvdCacheUpdate 16 CDVD_MODE_2048 (sample_block 16) fresh_cache))
  = (true, sample_block 16).
Proof.
  apply (cache_fetch_after_update fresh_cache 16 CDVD_MODE_2048
           (sample_block 16) zero_block [(32, CDVD_MODE_2048, zero_block)]).
  - exact fresh_cache_length.
  - exact (sample_block_length 16).
  - exact zero_block_length.
  - repeat constructor. intros HH. vm_compute in HH. discriminate HH.
Defined.

Lemma cdvdGetSector_offsets_witness :
  let s := mock_state_with_request (sample_disc 100 0) 16 CDVD_MODE_2352 false in
  cdvdGetSector 18 CDVD_MODE_2048 s = Some (2048 * 2) /\
  cdvdGetSector 18 CDVD_MODE_2352 s = Some (2352 * 2) /\
  cdvdGetSector 18 CDVD_MODE_2328 s = Some (2352 * 2 + 24) /\
  cdvdGetSector 18 CDVD_MODE_2340 s = Some (2352 * 2 + 12).
Proof.
  cbv zeta.
  destruct (cdvdGetSector_offsets
              (mock_state_with_request (sample_disc 100 0) 16 CDVD_MODE_2352 false)
              18 sample_modes_distinct eq_refl)
    as (H1 & H2 & H3 & H4 & _).
  - by_evaluation.
  - repeat split; assumption.
Defined.

Lemma cdvdRequestSector_aligned_witness :
  let s := mock_state (sample_disc 100 0) in
  cdvdRequestSector 17 CDVD_MODE_2048 s = cdvdRequestSector 16 CDVD_MODE_2048 s /\
  lsn (threadRequestInfo (snd (cdvdRequestSector 17 CDVD_MODE_2048 s))) = 16 /\
  lsn (threadRequestInfo (snd (cdvdRequestSector 47 CDVD_MODE_2048 s))) = 32.
Proof.
  cbv zeta.
  destruct (cdvdRequestSector_aligned (mock_state (sample_disc 100 0)) 17 CDVD_MODE_2048)
    as (Hin & _ & _ & H17).
  { by_evaluation. }
  destruct (cdvdRequestSector_aligned (mock_state (sample_disc 100 0)) 47 CDVD_MODE_2048)
    as (Hin47 & _).
  { by_evaluation. }
  split; [apply H17; [reflexivity | intros HH; vm_compute in HH; discriminate HH] |].
  rewrite Hin by by_evaluation. rewrite Hin47 by by_evaluation.
  split; vm_compute; reflexivity.
Defined.

(** On a disc of 17 sectors the request for sector 17 is refused while
    the one for the aligned address 16 is accepted and armed. *)
Lemma cdvdRequestSector_alignment_counterexample :
  let s := mock_state (sample_disc 17 0) in
  let r17 := cdvdRequestSector 17 CDVD_MODE_2048 s in
  let r16 := cdvdRequestSector (Z.land 17 (Z.lnot 15)) CDVD_MODE_2048 s in
  fst r17 = -1 /\ fst r16 = 0 /\
  threadRequestPending (snd r17) = false /\
  threadRequestPending (snd r16) = true /\
  r17 <> r16.
Proof.
  cbv zeta.
  assert (H17 : fst (cdvdRequestSector 17 CDVD_MODE_2048 (mock_state (sample_disc 17 0)))
                = -1) by (vm_compute; reflexivity).
  assert (H16 : fst (cdvdRequestSector (Z.land 17 (Z.lnot 15)) CDVD_MODE_2048
                       (mock_state (sample_disc 17 0)))
                = 0) by (vm_compute; reflexivity).
  split; [exact H17 |]. split; [exact H16 |].
  split; [vm_compute; reflexivity |]. split; [vm_compute; reflexivity |].
  intros Heq. rewrite Heq, H16 in H17. discriminate H17.
Qed.

Lemma out_of_range_rejected_witness :
  let s := mock_state (sample_disc 17 0) in
  cdvdRequestSector 17 CDVD_MODE_2048 s = (-1, s) /\
  cdvdDirectReadSector 17 CDVD_MODE_2048 [] s = (-1, Some [], s).
Proof.
  cbv zeta.
  destruct (out_of_range_rejected (mock_state (sample_disc 17 0)) 17 CDVD_MODE_2048 [])
    as (H1 & H2).
  - by_evaluation.
  - split; [exact H1 |]. apply H2. by_evaluation.
Defined.

Lemma block_length_by_evaluation (l : list char) :
  Nat.eqb (length l) (Z.to_nat BLOCK_BYTES) = true -> length l = Z.to_nat BLOCK_BYTES.
Proof. apply Nat.eqb_eq. Qed.

(** A request for block 32 is pending; the worker fulfils it and then
    runs two more passes: the read after the fulfilment is of block 32
    again and only the next one is of block 48. *)
Lemma prefetch_reads_start_at_served_block_witness :
  let s := mock_state_with_request (sample_disc 1000 0) 32 CDVD_MODE_2352 true in
  let s1 := cdvdThread_service s in
  prefetch s1 = mkPrefetch 32 CDVD_MODE_2352 16 /\
  (exists es, es <> [] /\ trace (cdvdThread_service s1) = trace s1 ++ es /\
              Forall (is_read_at 32) es) /\
  trace (service_passes 2 s1) =
  [EvReadSectors2352 32 16 true; EvNotifyRequest;
   EvReadSectors2352 32 16 true; EvReadSectors2352 48 16 true].
Proof.
  cbv zeta.
  destruct (prefetch_reads_start_at_served_block
              (mock_state_with_request (sample_disc 1000 0) 32 CDVD_MODE_2352 true) 0)
    as (H1 & _ & _ & _ & _ & H6 & _).
  - reflexivity.
  - by_evaluation.
  - by_evaluation.
  - exact fresh_cache_length.
  - lia.
  - split; [exact H1 |]. split; [exact H6 |]. vm_compute. reflexivity.
Defined.

(** Sector 0 read directly in mode 2352 from the sample disc, whose
    byte [i] is [i mod 256]: the caller's buffer starts with byte 12. *)
Lemma direct_read_2352_starts_12_bytes_in_witness :
  default [] (take 4 <$> snd (fst (cdvdDirectReadSector 0 CDVD_MODE_2352
                                     (replicate 2352 Byte.x00)
                                     (mock_state (sample_disc 100 0)))))
  = [Byte.x0c; Byte.x0d; Byte.x0e; Byte.x0f].
Proof.
  destruct (direct_read_2352_starts_12_bytes_in
              (mock_state (sample_disc 100 0)) 0 (replicate 2352 Byte.x00))
    as (_ & _ & H3).
  - exact sample_modes_distinct.
  - by_evaluation.
  - by_evaluation.
  - rewrite H3.
    + vm_compute. reflexivity.
    + by_evaluation.
    + apply block_length_by_evaluation. vm_compute. reflexivity.
    + apply length_replicate.
Defined.

(** Sector 15, the last of its block, read directly in mode 2352: the
    source range ends 12 bytes after the scratch buffer. *)
Lemma direct_read_2352_overruns_block_witness :
  snd (fst (cdvdDirectReadSector 15 CDVD_MODE_2352 (replicate 2352 Byte.x00)
              (mock_state (sample_disc 100 0)))) = None /\
  direct_copy_range 15 (Z.land 15 (Z.lnot 15)) CDVD_MODE_2352 = (35292, 2352).
Proof.
  destruct (direct_read_2352_overruns_block
              (mock_state (sample_disc 100 0)) 15 (replicate 2352 Byte.x00))
    as (H1 & _ & H3 & _).
  - exact sample_modes_distinct.
  - by_evaluation.
  - by_evaluation.
  - by_evaluation.
  - apply block_length_by_evaluation. vm_compute. reflexivity.
  - split; [exact H3 | exact H1].
Defined.

(** A drive that fails three times and then succeeds: four calls, the
    request is fulfilled with the block of the disc and a fetch of
    block 32 finds that block in the cache.  A drive that keeps
    failing: four calls, and the request is fulfilled all the same,
    with the bytes the buffer held, which a fetch also finds in the
    cache.  A prefetch pass on the failing drive makes four calls
    too. *)
Lemma read_retried_at_most_four_times_witness :
  let s3 := mock_state_with_request (sample_disc 1000 3) 32 CDVD_MODE_2352 true in
  let s9 := mock_state_with_request (sample_disc 1000 9) 32 CDVD_MODE_2352 true in
  let p9 := mock_state_prefetching (sample_disc 1000 9) 48 CDVD_MODE_2352 5 in
  length (snd (read_tries 4 32 CDVD_MODE_2352 16 zero_block (sample_disc 1000 3))) = 4%nat /\
  threadRequestPending (cdvdThread_service s3) = false /\
  take 4 (data (threadRequestInfo (cdvdThread_service s3)))
  = [Byte.x00; Byte.x01; Byte.x02; Byte.x03] /\
  trace (cdvdThread_service s3)
  = [EvReadSectors2352 32 16 false; EvReadSectors2352 32 16 false;
     EvReadSectors2352 32 16 false; EvReadSectors2352 32 16 true; EvNotifyRequest] /\
  threadRequestPending (cdvdThread_service s9) = false /\
  take 4 (data (threadRequestInfo (cdvdThread_service s9)))
  = [Byte.x00; Byte.x00; Byte.x00; Byte.x00] /\
  trace (cdvdThread_service s9)
  = [EvReadSectors2352 32 16 false; EvReadSectors2352 32 16 false;
     EvReadSectors2352 32 16 false; EvReadSectors2352 32 16 false; EvNotifyRequest] /\
  fst (cdvdCacheFetch 32 CDVD_MODE_2352 zero_block (Cache s3)) = false /\
  fst (cdvdCacheFetch 32 CDVD_MODE_2352 zero_block (Cache (cdvdThread_service s3))) = true /\
  take 4 (snd (cdvdCacheFetch 32 CDVD_MODE_2352 zero_block (Cache (cdvdThread_service s3))))
  = [Byte.x00; Byte.x01; Byte.x02; Byte.x03] /\
  fst (cdvdCacheFetch 32 CDVD_MODE_2352 (sample_block 0) (Cache (cdvdThread_service s9)))
  = true /\
  take 4 (snd (cdvdCacheFetch 32 CDVD_MODE_2352 (sample_block 0)
                 (Cache (cdvdThread_service s9))))
  = [Byte.x00; Byte.x00; Byte.x00; Byte.x00] /\
  trace (cdvdThread_service p9)
  = [EvReadSectors2352 48 16 false; EvReadSectors2352 48 16 false;
     EvReadSectors2352 48 16 false; EvReadSectors2352 48 16 false] /\
  fst (cdvdCacheFetch 48 CDVD_MODE_2352 zero_block (Cache (cdvdThread_service p9))) = true.
Proof.
  cbv zeta.
  destruct (read_retried_at_most_four_times
              (mock_state_with_request (sample_disc 1000 3) 32 CDVD_MODE_2352 true)
              32 CDVD_MODE_2352 16 0 zero_block [] (sample_disc 1000 3))
    as (_ & Hfour & Hworker & _ & Hcache & _).
  destruct (read_retried_at_most_four_times
              (mock_state_with_request (sample_disc 1000 9) 32 CDVD_MODE_2352 true)
              32 CDVD_MODE_2352 16 0 zero_block [] (sample_disc 1000 9))
    as (_ & _ & Hworker9 & _ & Hcache9 & _).
  destruct (read_retried_at_most_four_times
              (mock_state_prefetching (sample_disc 1000 9) 48 CDVD_MODE_2352 5)
              32 CDVD_MODE_2352 16 0 zero_block [] (sample_disc 1000 9))
    as (_ & _ & _ & _ & _ & Hprefetch & _).
  destruct Hfour as (_ & Hlen); try (vm_compute; reflexivity).
  destruct (Hcache eq_refl fresh_cache_length) as (_ & _ & Hhit & _).
  destruct (Hcache9 eq_refl fresh_cache_length) as (_ & _ & Hhit9 & _).
  destruct (Hprefetch eq_refl ltac:(intros HH; discriminate HH)) as (_ & Hpc).
  destruct (Hpc fresh_cache_length) as (_ & _ & Hhitp & _).
  split; [exact Hlen |].
  do 6 (split; [try rewrite (Hworker eq_refl); try rewrite (Hworker9 eq_refl);
                vm_compute; reflexivity |]).
  split; [vm_compute; reflexivity |].
  split; [apply Hhit |].
  split; [vm_compute; reflexivity |].
  split; [apply Hhit9 |].
  split; [vm_compute; reflexivity |].
  split; [vm_compute; reflexivity |].
  apply Hhitp.
Defined.

(** The drive answers present, absent, absent, present to four checks:
    the callback runs on the second and on the fourth check only. *)
Lemma disc_change_notified_once_per_transition_witness :
  let s := mock_state (mkMockSrc [true; false; false; true] 100 0 sample_block) in
  let s1 := snd (cdvdUpdateDiscStatus s) in
  cb_count (trace s1) = 0%nat /\
  fst (poll 3 s1) = [true; true; false] /\
  cb_count (trace (snd (poll 3 s1))) = 2%nat.
Proof.
  cbv zeta.
  destruct (disc_change_notified_once_per_transition
              (mock_state (mkMockSrc [true; false; false; true] 100 0 sample_block)) 3)
    as (_ & _ & _ & Hcount).
  rewrite Hcount.
  repeat split; vm_compute; reflexivity.
Defined.

(** * Further properties of the cache *)

Lemma land_lxor_distr a b c :
  Z.land (Z.lxor a b) c = Z.lxor (Z.land a c) (Z.land b c).
Proof.
  apply Z.bits_inj'. intros n _.
  rewrite !Z.lxor_spec, !Z.land_spec, Z.lxor_spec.
  destruct (Z.testbit a n), (Z.testbit b n), (Z.testbit c n); reflexivity.
Qed.

Lemma lxor_cancel_r a a' x : Z.lxor a x = Z.lxor a' x -> a = a'.
Proof.
  intros Heq. apply Z.lxor_eq.
  replace (Z.lxor a a') with (Z.lxor (Z.lxor a x) (Z.lxor a' x)).
  - rewrite Heq. apply Z.lxor_nilpotent.
  - rewrite Z.lxor_assoc, (Z.lxor_comm a' x), <- (Z.lxor_assoc x x a').
    rewrite Z.lxor_nilpotent, Z.lxor_0_l. reflexivity.
Qed.

Lemma lxor_cancel_l a a' x : Z.lxor x a = Z.lxor x a' -> a = a'.
Proof. rewrite !(Z.lxor_comm x). apply lxor_cancel_r. Qed.

Lemma spec_fold_three_chunks l :
  spec_fold 33 0 l 32 =
  Z.lxor (Z.lxor (Z.lxor 0 (Z.land l (Z.ones 12)))
                 (Z.land (Z.shiftr l 12) (Z.ones 12)))
         (Z.land (Z.shiftr (Z.shiftr l 12) 12) (Z.ones 12)).
Proof. reflexivity. Qed.

(** The hash is the low chunk of the address XORed with a value that
    depends on the address only through [l >> 12]. *)
Lemma cdvdSectorHash_split l m :
  cdvdSectorHash l m =
  Z.lxor (Z.land l (Z.ones 12))
         (Z.land (Z.lxor (Z.lxor (Z.land (Z.shiftr l 12) (Z.ones 12))
                                 (Z.land (Z.shiftr (Z.shiftr l 12) 12) (Z.ones 12)))
                         m)
                 (Z.ones 12)).
Proof.
  unfold cdvdSectorHash. rewrite hash_loop_three_chunks.
  change (to_u32 (CacheSize - 1)) with (Z.ones 12).
  unfold to_u32. rewrite land_lxor_u32_low.
  rewrite spec_fold_three_chunks.
  rewrite Z.lxor_0_l.
  rewrite !land_lxor_distr.
  rewrite <- !Z.land_assoc, !Z.land_diag.
  rewrite !Z.lxor_assoc. reflexivity.
Qed.

Lemma cdvdCacheReset_lookup (C : list SectorInfo) (j : nat) :
  cdvdCacheReset C !! j = (fun slot => mkSectorInfo (-1) (-1) (data slot)) <$> C !! j.
Proof.
  unfold cdvdCacheReset. revert j.
  induction C as [| x C IH]; intros [| j]; cbn; auto.
Qed.

Lemma cdvdCacheReset_length (C : list SectorInfo) :
  length (cdvdCacheReset C) = length C.
Proof. unfold cdvdCacheReset. apply length_map. Qed.

Lemma cdvdCacheFetch_reset_miss l m out (C : list SectorInfo) :
  (l, m) <> (-1, -1) ->
  cdvdCacheFetch l m out (cdvdCacheReset C) = (false, out).
Proof.
  intros Hne. unfold cdvdCacheFetch. rewrite cdvdCacheReset_lookup.
  destruct (C !! _) as [slot |];
    cbn [fmap option_fmap option_map lsn mode data]; [| reflexivity].
  destruct (Z.eqb_spec (-1) l) as [<- | ?]; [| reflexivity].
  destruct (Z.eqb_spec (-1) m) as [<- | ?]; [| reflexivity].
  contradiction.
Qed.

Lemma cdvdCacheFetch_flag_iff l m out (C : list SectorInfo) :
  fst (cdvdCacheFetch l m out C) = true <->
  exists slot, C !! Z.to_nat (cdvdSectorHash l m) = Some slot /\
               lsn slot = l /\ mode slot = m.
Proof.
  unfold cdvdCacheFetch. destruct (C !! _) as [slot |].
  - destruct (Z.eqb_spec (lsn slot) l) as [El | Nl];
      destruct (Z.eqb_spec (mode slot) m) as [Em | Nm]; cbn; split;
      try discriminate; try (intros (s' & Hs & Hl & Hm); congruence).
    intros _. exists slot. auto.
  - cbn. split; [discriminate | intros (s' & Hs & _); discriminate].
Qed.

(** X1: in a cache that was just reset, a fetch misses and leaves the
    caller's buffer alone for every (lsn, mode) except the pair
    (-1, -1) written by the reset, which is found in its slot. *)
Theorem fetch_after_reset (C : list SectorInfo) (l m : Z) (out : list char) :
  length C = Z.to_nat CacheSize ->
  ((l, m) <> (-1, -1) -> cdvdCacheFetch l m out (cdvdCacheReset C) = (false, out)) /\
  fst (cdvdCacheFetch (-1) (-1) out (cdvdCacheReset C)) = true /\
  (fst (cdvdCacheFetch l m out (cdvdCacheReset C)) = true <-> (l, m) = (-1, -1)).
Proof.
  intros HC.
  assert (Hsentinel : fst (cdvdCacheFetch (-1) (-1) out (cdvdCacheReset C)) = true).
  { apply cdvdCacheFetch_flag_iff.
    pose proof (hash_slot_in_range (-1) (-1) C HC) as Hlt.
    destruct (lookup_lt_is_Some_2 _ _ Hlt) as [old Hold].
    exists (mkSectorInfo (-1) (-1) (data old)).
    rewrite cdvdCacheReset_lookup, Hold. auto. }
  split; [apply cdvdCacheFetch_reset_miss |]. split; [exact Hsentinel |].
  split.
  - intros Hhit.
    destruct (decide ((l, m) = (-1, -1))) as [? | Hne]; [assumption |].
    rewrite (cdvdCacheFetch_reset_miss l m out C Hne) in Hhit. discriminate.
  - intros [= -> ->]. exact Hsentinel.
Qed.

(** X2: two different (lsn, mode) pairs with the same hash share a slot
    and the later update wins: after it the earlier pair is no longer
    found, and the later one is. *)
Theorem cache_collision_evicts
    (C : list SectorInfo) (a m a' m' : Z) (buf buf' out : list char) :
  length C = Z.to_nat CacheSize ->
  cdvdSectorHash a m = cdvdSectorHash a' m' ->
  (a, m) <> (a', m') ->
  let C' := cdvdCacheUpdate a' m' buf' (cdvdCacheUpdate a m buf C) in
  cdvdCacheFetch a m out C' = (false, out) /\
  fst (cdvdCacheFetch a' m' out C') = true.
Proof.
  intros HC Hh Hne C'. subst C'.
  assert (HC1 : length (cdvdCacheUpdate a m buf C) = Z.to_nat CacheSize)
    by (rewrite cdvdCacheUpdate_length; exact HC).
  destruct (cdvdCacheUpdate_same a' m' buf' _ HC1) as (old & _ & Hnew).
  split.
  - eapply cdvdCacheFetch_miss.
    + rewrite Hh. exact Hnew.
    + cbn. congruence.
  - apply cdvdCacheFetch_flag_iff. eexists. split; [exact Hnew | auto].
Qed.

(** X3: an update changes one slot only: a fetch of a pair that hashes
    elsewhere gives what it gave before the update. *)
Theorem cache_update_keeps_other_slots
    (C : list SectorInfo) (a m a' m' : Z) (buf out : list char) :
  cdvdSectorHash a' m' <> cdvdSectorHash a m ->
  cdvdCacheFetch a' m' out (cdvdCacheUpdate a m buf C) = cdvdCacheFetch a' m' out C.
Proof.
  intros Hne. unfold cdvdCacheFetch.
  rewrite cdvdCacheUpdate_other; [reflexivity |].
  pose proof (cdvdSectorHash_bound a m). pose proof (cdvdSectorHash_bound a' m').
  lia.
Qed.

Lemma hash_equal_in_window (l l' m : Z) :
  Z.shiftr l 12 = Z.shiftr l' 12 ->
  cdvdSectorHash l m = cdvdSectorHash l' m ->
  l = l'.
Proof.
  intros Hhigh Hh.
  rewrite !cdvdSectorHash_split, Hhigh in Hh.
  apply lxor_cancel_r in Hh.
  rewrite !Z.land_ones in Hh by lia.
  rewrite !Z.shiftr_div_pow2 in Hhigh by lia.
  pose proof (Z.div_mod l (2 ^ 12) ltac:(lia)).
  pose proof (Z.div_mod l' (2 ^ 12) ltac:(lia)).
  lia.
Qed.

Lemma hash_equal_modes (l m m' : Z) :
  cdvdSectorHash l m = cdvdSectorHash l m' ->
  m mod 2 ^ 12 = m' mod 2 ^ 12.
Proof.
  intros Hh. rewrite !cdvdSectorHash_split in Hh.
  apply lxor_cancel_l in Hh.
  rewrite !land_lxor_distr in Hh. apply lxor_cancel_l in Hh.
  rewrite !Z.land_ones in Hh by lia. exact Hh.
Qed.

(** X4: two different addresses of the same 4096-sector window (equal
    [l >> 12]), in the same mode, have different hashes; so the blocks
    of one window never evict each other. *)
Theorem hash_injective_in_window (l l' m : Z) :
  Z.shiftr l 12 = Z.shiftr l' 12 ->
  l <> l' ->
  cdvdSectorHash l m <> cdvdSectorHash l' m.
Proof.
  intros Hhigh Hne Hh. apply Hne. exact (hash_equal_in_window l l' m Hhigh Hh).
Qed.

(** X5: for one address, two modes that differ in their low 12 bits
    have different hashes; so the blocks of one address in different
    read modes lie in different slots. *)
Theorem hash_separates_modes (l m m' : Z) :
  m mod 2 ^ 12 <> m' mod 2 ^ 12 ->
  cdvdSectorHash l m <> cdvdSectorHash l m'.
Proof.
  intros Hne Hh. apply Hne. exact (hash_equal_modes l m m' Hh).
Qed.

Lemma fetch_after_reset_witness :
  cdvdCacheFetch 16 CDVD_MODE_2048 zero_block (cdvdCacheReset fresh_cache)
  = (false, zero_block) /\
  fst (cdvdCacheFetch (-1) (-1) zero_block (cdvdCacheReset fresh_cache)) = true.
Proof.
  destruct (fetch_after_reset fresh_cache 16 CDVD_MODE_2048 zero_block)
    as (Hmiss & Hhit & _).
  - exact fresh_cache_length.
  - split; [apply Hmiss; intros HH; discriminate HH | exact Hhit].
Defined.

(** Block 16 in mode 2048 and block 12304 in mode 2352 share slot 19. *)
Lemma cache_collision_evicts_witness :
  cdvdCacheFetch 16 CDVD_MODE_2048 zero_block
    (cdvdCacheUpdate 12304 CDVD_MODE_2352 zero_block
       (cdvdCacheUpdate 16 CDVD_MODE_2048 (sample_block 16) fresh_cache))
  = (false, zero_block).
Proof.
  apply (cache_collision_evicts fresh_cache 16 CDVD_MODE_2048 12304 CDVD_MODE_2352
           (sample_block 16) zero_block zero_block).
  - exact fresh_cache_length.
  - vm_compute. reflexivity.
  - intros HH. discriminate HH.
Defined.

Lemma cache_update_keeps_other_slots_witness :
  cdvdCacheFetch 32 CDVD_MODE_2048 zero_block
    (cdvdCacheUpdate 16 CDVD_MODE_2048 (sample_block 16) fresh_cache)
  = cdvdCacheFetch 32 CDVD_MODE_2048 zero_block fresh_cache.
Proof.
  apply cache_update_keeps_other_slots.
  intros HH. vm_compute in HH. discriminate HH.
Defined.

Lemma hash_injective_in_window_witness :
  cdvdSectorHash 16 CDVD_MODE_2048 <> cdvdSectorHash 4080 CDVD_MODE_2048.
Proof.
  apply (hash_injective_in_window 16 4080 CDVD_MODE_2048).
  - vm_compute. reflexivity.
  - intros HH. discriminate HH.
Defined.

Lemma hash_separates_modes_witness :
  cdvdSectorHash 16 CDVD_MODE_2048 <> cdvdSectorHash 16 CDVD_MODE_2352.
Proof.
  apply (hash_separates_modes 16 CDVD_MODE_2048 CDVD_MODE_2352).
  intros HH. vm_compute in HH. discriminate HH.
Defined.

(** * Further properties of the request path and the worker *)

Lemma to_s32_mod16 z : (to_s32 z) mod 16 = z mod 16.
Proof.
  unfold to_s32.
  pose proof (Z.div_mod (z + 2 ^ 31) (2 ^ 32) ltac:(lia)) as Hdm.
  set (q := (z + 2 ^ 31) / 2 ^ 32) in *.
  replace ((z + 2 ^ 31) mod 2 ^ 32 - 2 ^ 31) with (z + (- 2 ^ 28 * q) * 16) by lia.
  apply Z_mod_plus_full.
Qed.

Lemma aligned_lsn_not_sentinel k m : (to_s32 (16 * k), m) <> (-1, -1).
Proof.
  intros [= Hl _]. pose proof (to_s32_mod16 (16 * k)) as Hm.
  rewrite Hl, (Z.mul_comm 16 k), Z.mod_mul in Hm by lia.
  discriminate Hm.
Qed.

Section RequestPath.

Context {Src : Type} {io : IOCtlSrc Src} {defs : CDVD_h}.

Lemma read_tries_4_length l m count buf (b : Src) :
  (1 <= length (snd (read_tries 4 l m count buf b)) <= 4)%nat.
Proof.
  destruct (read_tries_char 4 l m count buf b ltac:(lia))
    as (k & Hk & _ & Hlen & _).
  rewrite Hlen. exact Hk.
Qed.

Lemma memcpy_self_through_cache (old buf : list char) :
  (Z.to_nat BLOCK_BYTES <= length buf)%nat ->
  memcpy buf (memcpy old buf BLOCK_BYTES) BLOCK_BYTES = buf.
Proof.
  intros Hlen. rewrite memcpy_twice by exact Hlen.
  unfold memcpy. apply take_drop.
Qed.

(** X6: with the cache just reset, every accepted request misses: it
    returns 0, arms the pending slot with the aligned address, leaves
    the slot's buffer alone and wakes the worker once. *)
Theorem request_after_reset_wakes_worker
    (s : State Src) (C : list SectorInfo) (address m : Z) :
  Cache s = cdvdCacheReset C ->
  0 <= address < sector_count s ->
  cdvdRequestSector address m s =
  (0, mkState (prefetch s) (disc s) (Cache s) true
              (mkSectorInfo (to_s32 (16 * (address / 16))) m
                            (data (threadRequestInfo s)))
              (info s) (direct_data s) (cdvd_is_open s) (src s)
              (trace s ++ [EvNotifyWorker])).
Proof.
  intros HC Hr.
  rewrite (cdvdRequestSector_accepted s address m Hr). cbv zeta.
  rewrite HC.
  rewrite (cdvdCacheFetch_reset_miss _ m _ C (aligned_lsn_not_sentinel _ m)).
  reflexivity.
Qed.

(** X7: a request that misses the cache is fulfilled by one pass of the
    worker: the trace is the wake-up, between one and four reads of the
    aligned block and the completion signal; afterwards the request is
    complete, the slot carries the aligned address and the mode, the
    prefetch is reset to them with budget 16, and the block is in the
    cache. *)
Theorem request_fulfilled_by_one_pass
    (s : State Src) (address m : Z) (out : list char) :
  0 <= address < sector_count s ->
  length (Cache s) = Z.to_nat CacheSize ->
  threadRequestPending (snd (cdvdRequestSector address m s)) = true ->
  let l := to_s32 (16 * (address / 16)) in
  let s2 := cdvdThread_service (snd (cdvdRequestSector address m s)) in
  (exists es,
     (1 <= length es <= 4)%nat /\ Forall (is_read_at l) es /\
     trace s2 = trace s ++ [EvNotifyWorker] ++ es ++ [EvNotifyRequest]) /\
  cdvdRequestComplete s2 = 1 /\
  lsn (threadRequestInfo s2) = l /\ mode (threadRequestInfo s2) = m /\
  prefetch s2 = mkPrefetch l m prefetch_max_blocks /\
  fst (cdvdCacheFetch l m out (Cache s2)) = true.
Proof.
  intros Hr HC Hpend l s2. subst s2.
  rewrite (cdvdRequestSector_accepted s address m Hr) in *.
  cbv zeta in *. cbn [snd] in *. fold l in Hpend |- *.
  set (f := cdvdCacheFetch l m (data (threadRequestInfo s)) (Cache s)) in *.
  cbn [threadRequestPending] in Hpend.
  destruct (fst f) eqn:Hf; [discriminate |]. cbn [negb].
  rewrite cdvdThread_service_request by reflexivity.
  cbn -[read_tries cdvdCacheFetch cdvdCacheUpdate block_count].
  set (w := read_tries 4 l m _ (snd f) (src s)).
  repeat apply conj; try reflexivity.
  - exists (snd w). split; [apply read_tries_4_length |].
    split; [apply read_tries_4_events |].
    rewrite <- !app_assoc. reflexivity.
  - apply cdvdCacheFetch_flag_iff.
    destruct (cdvdCacheUpdate_same l m (fst (fst w)) (Cache s) HC) as (old & _ & Hnew).
    eexists. split; [exact Hnew | auto].
Qed.

(** X8: once the worker has fulfilled a request, a new request for a
    sector of the same block in the same mode is served from the cache:
    it returns 0 and changes nothing, so the slot keeps its data, the
    worker is not woken and the backend is not read. *)
Theorem served_block_is_cached
    (s : State Src) (address m : Z) :
  threadRequestPending s = true ->
  length (Cache s) = Z.to_nat CacheSize ->
  let s2 := cdvdThread_service s in
  0 <= address < sector_count s2 ->
  to_s32 (16 * (address / 16)) = lsn (threadRequestInfo s) ->
  m = mode (threadRequestInfo s) ->
  (Z.to_nat BLOCK_BYTES <= length (data (threadRequestInfo s2)))%nat ->
  cdvdRequestSector address m s2 = (0, s2).
Proof.
  intros Hp HC s2 Hr Hl Hm Hlen.
  rewrite (cdvdRequestSector_accepted s2 address m Hr). cbv zeta.
  rewrite Hl, Hm.
  subst s2. rewrite (cdvdThread_service_request s Hp) in *.
  cbn -[read_tries cdvdCacheFetch cdvdCacheUpdate block_count] in *.
  set (i := threadRequestInfo s) in *.
  set (w := read_tries 4 (lsn i) (mode i) (block_count (lsn i) s) (data i) (src s)) in *.
  destruct (cdvdCacheUpdate_same (lsn i) (mode i) (fst (fst w)) (Cache s) HC)
    as (old & _ & Hnew).
  rewrite (cdvdCacheFetch_hit _ _ _ _ _ Hnew eq_refl eq_refl).
  cbn [fst snd negb data]. rewrite app_nil_r.
  rewrite memcpy_self_through_cache by exact Hlen. reflexivity.
Qed.

(** X9: right after an autonomous pass of the worker, a request for a
    sector of the block that pass read is served from the cache without
    waking the worker, and hands over the bytes the pass read. *)
Theorem prefetched_block_is_cached
    (s : State Src) (address : Z) :
  threadRequestPending s = false ->
  prefetch_left (prefetch s) <> 0 ->
  length (Cache s) = Z.to_nat CacheSize ->
  let s' := cdvdThread_service s in
  let m := prefetch_last_mode (prefetch s) in
  0 <= address < sector_count s' ->
  to_s32 (16 * (address / 16)) = prefetch_last_lba (prefetch s) ->
  (Z.to_nat BLOCK_BYTES <= length (data (info s')))%nat ->
  let r := cdvdRequestSector address m s' in
  fst r = 0 /\
  threadRequestPending (snd r) = false /\
  trace (snd r) = trace s' /\
  src (snd r) = src s' /\
  take (Z.to_nat BLOCK_BYTES) (data (threadRequestInfo (snd r)))
  = take (Z.to_nat BLOCK_BYTES) (data (info s')).
Proof.
  intros Hp Hleft HC s' m Hr Hl Hlen r. subst r.
  rewrite (cdvdRequestSector_accepted s' address m Hr). cbv zeta.
  rewrite Hl. subst m s'.
  rewrite (cdvdThread_service_prefetch s Hp Hleft) in *.
  cbn -[read_tries cdvdCacheFetch cdvdCacheUpdate block_count] in *.
  set (p := prefetch s) in *.
  set (w := read_tries 4 (prefetch_last_lba p) (prefetch_last_mode p)
              (block_count (prefetch_last_lba p) s) (data (info s)) (src s)) in *.
  destruct (cdvdCacheUpdate_same (prefetch_last_lba p) (prefetch_last_mode p)
              (fst (fst w)) (Cache s) HC) as (old & _ & Hnew).
  rewrite (cdvdCacheFetch_hit _ _ _ _ _ Hnew eq_refl eq_refl).
  cbn [fst snd negb data]. rewrite app_nil_r.
  repeat split.
  rewrite memcpy_twice by exact Hlen.
  unfold memcpy. rewrite take_app_le by (rewrite length_take; lia).
  apply take_idemp.
Qed.

(** X10: an accepted request followed, if it missed, by one pass of the
    worker leaves the slot fulfilled at the aligned address, and
    [cdvdGetSector] for the requested address then points
    [2048 * (address mod 16)] bytes into the block in mode 2048 and
    [2352 * (address mod 16)] in a mode without extra offset. *)
Theorem request_then_getSector (s : State Src) (address m m' : Z) :
  0 <= address < sector_count s ->
  address < 2 ^ 31 ->
  let s1 := snd (cdvdRequestSector address m s) in
  let s2 := if threadRequestPending s1 then cdvdThread_service s1 else s1 in
  threadRequestPending s2 = false /\
  lsn (threadRequestInfo s2) = 16 * (address / 16) /\
  cdvdGetSector address CDVD_MODE_2048 s2 = Some (2048 * (address mod 16)) /\
  (m' <> CDVD_MODE_2048 -> m' <> CDVD_MODE_2328 -> m' <> CDVD_MODE_2340 ->
   cdvdGetSector address m' s2 = Some (2352 * (address mod 16))).
Proof.
  intros Hr Hs s1 s2.
  pose proof (align16_le address (proj1 Hr)) as Hal.
  pose proof (Z.div_mod address 16 ltac:(lia)) as Hdm.
  pose proof (Z.mod_pos_bound address 16 ltac:(lia)) as Hmod.
  assert (Hpl : threadRequestPending s2 = false /\
                lsn (threadRequestInfo s2) = 16 * (address / 16)).
  { subst s2 s1.
    rewrite (cdvdRequestSector_accepted s address m Hr). cbv zeta. cbn [snd].
    rewrite (to_s32_id (16 * (address / 16))) by (unfold is_s32; lia).
    cbn [threadRequestPending].
    destruct (fst (cdvdCacheFetch _ m _ (Cache s))); cbn [negb].
    - split; reflexivity.
    - rewrite cdvdThread_service_request by reflexivity. split; reflexivity. }
  destruct Hpl as (Hp & Hl).
  split; [exact Hp |]. split; [exact Hl |].
  unfold cdvdGetSector. rewrite Hp, Hl, Z.eqb_refl.
  replace (address - 16 * (address / 16)) with (address mod 16) by lia.
  rewrite !to_s32_id by (unfold is_s32; lia).
  split; [reflexivity |].
  intros N1 N2 N3.
  rewrite (proj2 (Z.eqb_neq _ _) N1), (proj2 (Z.eqb_neq _ _) N2),
          (proj2 (Z.eqb_neq _ _) N3).
  reflexivity.
Qed.

(** X11: the pointer [cdvdGetSector] returns for a sector of the
    fulfilled block always leaves a whole sector of the mode inside the
    16 * 2352 bytes of the slot's buffer: 2048 bytes in mode 2048, 2328
    in mode 2328, 2340 in mode 2340 and 2352 in any other mode. *)
Theorem cdvdGetSector_sector_fits (s : State Src) (sector m : Z) :
  modes_distinct ->
  threadRequestPending s = false ->
  lsn (threadRequestInfo s) <= sector < lsn (threadRequestInfo s) + 16 ->
  exists off,
    cdvdGetSector sector m s = Some off /\ 0 <= off /\
    (m = CDVD_MODE_2048 -> off + 2048 <= BLOCK_BYTES) /\
    (m = CDVD_MODE_2328 -> off + 2328 <= BLOCK_BYTES) /\
    (m = CDVD_MODE_2340 -> off + 2340 <= BLOCK_BYTES) /\
    (m <> CDVD_MODE_2048 -> m <> CDVD_MODE_2328 -> m <> CDVD_MODE_2340 ->
     off + 2352 <= BLOCK_BYTES).
Proof.
  intros Hd Hp Hr.
  destruct (modes_distinct_neq Hd) as (N1 & N2 & _ & N4 & _).
  unfold cdvdGetSector, BLOCK_BYTES. rewrite Hp.
  rewrite !to_s32_id by (unfold is_s32; lia).
  destruct (Z.eqb_spec m CDVD_MODE_2048) as [E1 | D1].
  - eexists. split; [reflexivity |]. repeat split; intros; subst; try lia; congruence.
  - destruct (Z.eqb_spec m CDVD_MODE_2328) as [E2 | D2].
    + eexists. split; [reflexivity |]. repeat split; intros; subst; try lia; congruence.
    + destruct (Z.eqb_spec m CDVD_MODE_2340) as [E3 | D3].
      * eexists. split; [reflexivity |].
        repeat split; intros; subst; try lia; congruence.
      * eexists. split; [reflexivity |].
        repeat split; intros; subst; try lia; congruence.
Qed.

(** ** Direct reads and the cache *)

Lemma cdvdDirectReadSector_hit (s : State Src) (first m : Z) (buffer : list char) :
  to_u32 first < sector_count s ->
  let sector := Z.land first (Z.lnot 15) in
  let f := cdvdCacheFetch sector m (direct_data s) (Cache s) in
  fst f = true ->
  cdvdDirectReadSector first m buffer s =
  (0, memcpy_from buffer (snd f)
        (fst (direct_copy_range first sector m))
        (snd (direct_copy_range first sector m)),
   set_direct_data (snd f) s).
Proof.
  intros Hin sector f Hhit. subst f.
  unfold cdvdDirectReadSector.
  destruct (Z.geb_spec (to_u32 first) (sector_count s)) as [? | _]; [lia |].
  fold sector.
  destruct (cdvdCacheFetch sector m (direct_data s) (Cache s)) as [hit out].
  cbn [fst snd] in *. subst hit. cbn [negb].
  destruct (direct_copy_range first sector m) as [off n]. reflexivity.
Qed.

Lemma direct_read_caches_block (s : State Src) (first m : Z) (buffer out : list char) :
  to_u32 first < sector_count s ->
  length (Cache s) = Z.to_nat CacheSize ->
  fst (cdvdCacheFetch (Z.land first (Z.lnot 15)) m out
         (Cache (snd (cdvdDirectReadSector first m buffer s)))) = true.
Proof.
  intros Hin HC.
  destruct (fst (cdvdCacheFetch (Z.land first (Z.lnot 15)) m (direct_data s) (Cache s)))
    eqn:Hf.
  - rewrite (cdvdDirectReadSector_hit s first m buffer Hin Hf). cbn [snd set_direct_data Cache].
    apply cdvdCacheFetch_flag_iff. apply cdvdCacheFetch_flag_iff in Hf. exact Hf.
  - rewrite (cdvdDirectReadSector_miss s first m buffer Hin Hf). cbn [snd Cache].
    apply cdvdCacheFetch_flag_iff.
    destruct (cdvdCacheUpdate_same (Z.land first (Z.lnot 15)) m
                (fst (fst (read_tries 4 (Z.land first (Z.lnot 15)) m
                             (block_count (Z.land first (Z.lnot 15)) s)
                             (direct_data s) (src s))))
                (Cache s) HC) as (old & _ & Hnew).
    eexists. split; [exact Hnew | auto].
Qed.

(** X12: after an accepted direct read the block is in the cache, so a
    second direct read of a sector of the same block in the same mode
    returns 0 without calling the backend and without touching the
    cache. *)
Theorem direct_read_again_uses_cache
    (s : State Src) (first first' m : Z) (buffer buffer' : list char) :
  to_u32 first < sector_count s ->
  length (Cache s) = Z.to_nat CacheSize ->
  let s1 := snd (cdvdDirectReadSector first m buffer s) in
  to_u32 first' < sector_count s1 ->
  Z.land first' (Z.lnot 15) = Z.land first (Z.lnot 15) ->
  let r2 := cdvdDirectReadSector first' m buffer' s1 in
  fst (fst r2) = 0 /\
  trace (snd r2) = trace s1 /\
  src (snd r2) = src s1 /\
  Cache (snd r2) = Cache s1.
Proof.
  intros Hin HC s1 Hin' Hblock r2. subst r2.
  pose proof (direct_read_caches_block s first m buffer (direct_data s1) Hin HC) as Hhit.
  fold s1 in Hhit. rewrite <- Hblock in Hhit.
  rewrite (cdvdDirectReadSector_hit s1 first' m buffer' Hin' Hhit).
  repeat split.
Qed.

(** X13: in the modes 2048, 2328 and 2340 an accepted direct read
    copies one sector from inside the scratch block: 2048 bytes from
    [2048 * d], 2328 bytes from [2352 * d + 24], 2340 bytes from
    [2352 * d + 12], with [d = first mod 16]. *)
Theorem direct_read_submodes_copy_sector
    (s : State Src) (first m : Z) (buffer : list char) :
  modes_distinct ->
  0 <= first < sector_count s ->
  first < 2 ^ 31 ->
  let r := cdvdDirectReadSector first m buffer s in
  let blk := direct_data (snd r) in
  let d := first mod 16 in
  length blk = Z.to_nat BLOCK_BYTES ->
  fst (fst r) = 0 /\
  (m = CDVD_MODE_2048 ->
   snd (fst r) = Some (memcpy buffer (drop (Z.to_nat (2048 * d)) blk) 2048)) /\
  (m = CDVD_MODE_2328 ->
   snd (fst r) = Some (memcpy buffer (drop (Z.to_nat (2352 * d + 24)) blk) 2328)) /\
  (m = CDVD_MODE_2340 ->
   snd (fst r) = Some (memcpy buffer (drop (Z.to_nat (2352 * d + 12)) blk) 2340)).
Proof.
  intros Hd Hin Hs r blk d Hlen.
  assert (Hcnt : sector_count s < 2 ^ 32).
  { unfold sector_count, to_u32. apply Z.mod_pos_bound. lia. }
  destruct (cdvdDirectReadSector_copy s first m buffer) as (H0 & Hcopy).
  { rewrite to_u32_id by (unfold is_u32; lia). lia. }
  fold r in H0, Hcopy. fold blk in Hcopy.
  destruct (direct_copy_range_modes first Hd) as (R1 & R2 & R3 & _).
  cbv zeta in R1, R2, R3.
  rewrite (block_index first (proj1 Hin)) in R1, R2, R3. fold d in R1, R2, R3.
  pose proof (Z.mod_pos_bound first 16 ltac:(lia)) as Hmod. fold d in Hmod.
  split; [exact H0 |].
  repeat split; intros ->; rewrite Hcopy;
    [rewrite R1 | rewrite R2 | rewrite R3]; cbn [fst snd];
    unfold memcpy_from; rewrite Hlen;
    match goal with
    | |- (if (?a <=? ?b) && (?c <=? ?e) then _ else _) = _ =>
        destruct (Z.leb_spec a b) as [_ | ?]; [| lia];
        destruct (Z.leb_spec c e) as [_ | Hbad];
        [| unfold BLOCK_BYTES in Hbad; lia]
    end; reflexivity.
Qed.

(** ** The size of a block read *)

Lemma to_s32_to_u32 x : to_s32 (to_u32 x) = to_s32 x.
Proof. unfold to_s32, to_u32. rewrite Z.add_mod_idemp_l by lia. reflexivity. Qed.

Lemma sector_count_u32 (s : State Src) : 0 <= sector_count s < 2 ^ 32.
Proof. unfold sector_count, to_u32. apply Z.mod_pos_bound. lia. Qed.

Lemma block_count_value (l : Z) (s : State Src) :
  0 <= l < 2 ^ 31 ->
  - 2 ^ 31 <= sector_count s - l < 2 ^ 31 ->
  block_count l s = Z.min 16 (sector_count s - l).
Proof.
  intros Hl Hd. unfold block_count.
  rewrite (to_u32_id l) by (unfold is_u32; lia).
  rewrite to_s32_to_u32, to_s32_id by (unfold is_s32; lia).
  destruct (Z.ltb_spec (sector_count s - l) 16); lia.
Qed.

Lemma read_once_count l m count buf (b : Src) :
  read_count (snd (read_once l m count buf b)) = Some count.
Proof.
  unfold read_once. destruct (m =? CDVD_MODE_2048).
  - destruct (ReadSectors2048 l count buf b) as [[ok buf'] b']. reflexivity.
  - destruct (ReadSectors2352 l count buf b) as [[ok buf'] b']. reflexivity.
Qed.

Lemma read_tries_counts (n : nat) : forall l m count buf (b : Src),
  Forall (fun e => read_count e = Some count) (snd (read_tries n l m count buf b)).
Proof.
  induction n as [| n' IH]; intros l m count buf b; cbn [read_tries].
  - constructor.
  - pose proof (read_once_count l m count buf b) as Hc.
    destruct (read_once l m count buf b) as [[[ok buf1] b1] e]. cbn [snd] in Hc.
    destruct ok.
    + repeat constructor. exact Hc.
    + specialize (IH l m count buf1 b1).
      destruct (read_tries n' l m count buf1 b1) as [[buf2 b2] es].
      constructor; assumption.
Qed.

(** X14: for a pending request whose block starts inside the disc, the
    worker asks the backend for [min(16, sectors left)] sectors in
    every read call, between 1 and 16 and never past the last sector. *)
Theorem request_read_stays_on_disc (s : State Src) :
  threadRequestPending s = true ->
  let l := lsn (threadRequestInfo s) in
  0 <= l < sector_count s ->
  sector_count s < 2 ^ 31 ->
  let c := Z.min 16 (sector_count s - l) in
  1 <= c <= 16 /\ l + c <= sector_count s /\
  exists es,
    trace (cdvdThread_service s) = trace s ++ es ++ [EvNotifyRequest] /\
    es <> [] /\
    Forall (fun e => is_read_at l e /\ read_count e = Some c) es.
Proof.
  intros Hp l Hl Hs c.
  split; [subst c; lia |]. split; [subst c; lia |].
  rewrite (cdvdThread_service_request s Hp). cbn [trace]. fold l.
  rewrite (block_count_value l s) by lia. fold c.
  set (w := read_tries 4 l (mode (threadRequestInfo s)) c
              (data (threadRequestInfo s)) (src s)).
  exists (snd w). rewrite <- app_assoc. split; [reflexivity |].
  split; [apply read_tries_4_events |].
  apply Forall_and. split; [apply read_tries_4_events | apply read_tries_counts].
Qed.

(** X15: the prefetch is not stopped at the end of the disc: with
    budget left and the prefetch address at or beyond the sector count,
    a pass without request still calls the backend, with a sector count
    that is zero or negative, and stores the buffer in the cache slot
    of that address. *)
Theorem prefetch_runs_past_end_of_disc (s : State Src) :
  threadRequestPending s = false ->
  prefetch_left (prefetch s) <> 0 ->
  let l := prefetch_last_lba (prefetch s) in
  sector_count s <= l < 2 ^ 31 ->
  length (Cache s) = Z.to_nat CacheSize ->
  let c := sector_count s - l in
  let s' := cdvdThread_service s in
  c <= 0 /\
  (exists es,
     trace s' = trace s ++ es /\ es <> [] /\
     Forall (fun e => is_read_at l e /\ read_count e = Some c) es) /\
  (exists slot,
     Cache s' !! Z.to_nat (cdvdSectorHash l (prefetch_last_mode (prefetch s)))
     = Some slot /\ lsn slot = l).
Proof.
  intros Hp Hleft l Hl HC c s'. subst s'.
  pose proof (sector_count_u32 s) as Hcnt.
  split; [subst c; lia |].
  rewrite (cdvdThread_service_prefetch s Hp Hleft). cbn [trace Cache]. fold l.
  assert (Hbc : block_count l s = c).
  { rewrite block_count_value by lia. subst c. lia. }
  rewrite Hbc.
  set (w := read_tries 4 l (prefetch_last_mode (prefetch s)) c
              (data (info s)) (src s)).
  split.
  - exists (snd w). split; [reflexivity |].
    split; [apply read_tries_4_events |].
    apply Forall_and. split; [apply read_tries_4_events | apply read_tries_counts].
  - destruct (cdvdCacheUpdate_same l (prefetch_last_mode (prefetch s))
                (fst (fst w)) (Cache s) HC) as (old & _ & Hnew).
    eexists. split; [exact Hnew | reflexivity].
Qed.

(** ** The worker loop and the disc status *)

(** X16: while the drive reports no medium, a pass of the worker loop
    reads nothing and fulfils nothing: it reports the change once if it
    is new, sleeps 10 ms, and leaves the cache, the pending slot and
    the prefetch as they were. *)
Theorem no_read_while_disc_absent (s : State Src) :
  fst (DiscReady (src s)) = false ->
  let s' := cdvdThread_body s in
  trace s' =
    trace s ++ (if disc_has_changed (disc s) then [] else [EvNewDiscCB])
            ++ [EvSleep 10] /\
  Cache s' = Cache s /\
  threadRequestPending s' = threadRequestPending s /\
  threadRequestInfo s' = threadRequestInfo s /\
  prefetch s' = prefetch s /\
  disc_has_changed (disc s') = true.
Proof.
  intros Hready s'. subst s'.
  destruct s as [pf d C pend req inf dd op b t].
  unfold cdvdThread_body, cdvdUpdateDiscStatus. cbn in *.
  destruct (DiscReady b) as [ready b']. cbn in Hready. subst ready.
  destruct d as [chg ty tray cb st et]. cbn.
  destruct chg; cbn; rewrite <- ?app_assoc; repeat split.
Qed.

(** X17: when a check finds the medium back after a change, nothing of
    the old disc stays in the cache: every fetch for a pair other than
    (-1, -1) misses afterwards, and every accepted request goes to the
    worker. *)
Theorem disc_change_invalidates_cache
    (s : State Src) (l m address : Z) (out : list char) :
  disc_has_changed (disc s) = true ->
  fst (DiscReady (src s)) = true ->
  let s' := snd (cdvdUpdateDiscStatus s) in
  ((l, m) <> (-1, -1) -> cdvdCacheFetch l m out (Cache s') = (false, out)) /\
  (0 <= address < sector_count s' ->
   fst (cdvdRequestSector address m s') = 0 /\
   threadRequestPending (snd (cdvdRequestSector address m s')) = true).
Proof.
  intros Hchg Hready s'.
  pose proof (cdvdUpdateDiscStatus_spec s) as (_ & _ & _ & _ & _ & _ & Hback).
  cbv zeta in Hback. destruct (Hback Hchg Hready) as (_ & _ & HC).
  fold s' in HC.
  split.
  - intros Hne. rewrite HC. apply cdvdCacheFetch_reset_miss. exact Hne.
  - intros Hr. rewrite (cdvdRequestSector_accepted s' address m Hr). cbv zeta.
    rewrite HC.
    rewrite (cdvdCacheFetch_reset_miss _ m _ (Cache s) (aligned_lsn_not_sentinel _ m)).
    split; reflexivity.
Qed.

(** X19: when a check finds the medium back, the disc type it leaves
    is the one [cdvdRefreshData] works out, not the no-disc value set
    just before: no-disc if the TOC has no last track or its first
    track lies after the last, else CD, single-layer or dual-layer DVD
    by the sign of the media type. *)
Theorem disc_type_after_insertion (s : State Src) :
  disc_has_changed (disc s) = true ->
  fst (DiscReady (src s)) = true ->
  let s' := snd (cdvdUpdateDiscStatus s) in
  let st := fst (ParseTOC (src s')) in
  let et := snd (ParseTOC (src s')) in
  let mt := to_s32 (GetMediaType (src s')) in
  (et = 0 \/ st > et -> curDiskType (disc s') = CDVD_TYPE_NODISC) /\
  (et <> 0 -> st <= et ->
   (mt < 0 -> curDiskType (disc s') = CDVD_TYPE_DETCTCD) /\
   (mt = 0 -> curDiskType (disc s') = CDVD_TYPE_DETCTDVDS) /\
   (mt > 0 -> curDiskType (disc s') = CDVD_TYPE_DETCTDVDD)).
Proof.
  intros Hchg Hready s'. subst s'.
  destruct s as [pf d C pend req inf dd op b t].
  destruct d as [chg ty tray cb st0 et0]. cbn in Hchg, Hready. subst chg.
  unfold cdvdUpdateDiscStatus, cdvdRefreshData, cdvdGetMediaType. cbn.
  destruct (DiscReady b) as [ready b']. cbn in Hready. subst ready. cbn.
  destruct (ParseTOC b') as [st et] eqn:Htoc. cbn. rewrite ?Htoc. cbn [fst snd].
  destruct (Z.eqb_spec et 0) as [E0 | N0]; cbn [orb].
  - split; [reflexivity | intros; contradiction].
  - destruct (Z.gtb_spec st et) as [Hgt | Hle].
    + split; [reflexivity | intros; lia].
    + split; [intros [? | ?]; [contradiction | lia] |].
      intros _ _.
      destruct (Z.ltb_spec (to_s32 (GetMediaType b')) 0);
        destruct (Z.eqb_spec (to_s32 (GetMediaType b')) 0);
        repeat split; intros; try reflexivity; lia.
Qed.

End RequestPath.

(** ** Where a cache hit comes from *)

Lemma cdvdCacheUpdates_snoc ups u (C : list SectorInfo) :
  cdvdCacheUpdates (ups ++ [u]) C =
  cdvdCacheUpdate (fst (fst u)) (snd (fst u)) (snd u) (cdvdCacheUpdates ups C).
Proof. unfold cdvdCacheUpdates. rewrite fold_left_app. reflexivity. Qed.

Lemma cdvdCacheUpdates_length ups (C : list SectorInfo) :
  length (cdvdCacheUpdates ups C) = length C.
Proof.
  induction ups as [| u ups IH] using rev_ind; [reflexivity |].
  rewrite cdvdCacheUpdates_snoc, cdvdCacheUpdate_length. exact IH.
Qed.

(** X21: starting from a reset cache, whatever updates were made, a hit
    for a pair other than (-1, -1) hands over the block of the latest
    update that went to that slot, and that update was made for exactly
    this (lsn, mode): a hit never returns another block's data. *)
Theorem cache_hit_returns_latest_write
    (C0 : list SectorInfo) (ups : list (Z * Z * list char))
    (l m : Z) (out out' : list char) :
  length C0 = Z.to_nat CacheSize ->
  Forall (fun u => (Z.to_nat BLOCK_BYTES <= length (snd u))%nat) ups ->
  (l, m) <> (-1, -1) ->
  cdvdCacheFetch l m out (cdvdCacheUpdates ups (cdvdCacheReset C0)) = (true, out') ->
  exists ups1 buf ups2,
    ups = ups1 ++ (l, m, buf) :: ups2 /\
    Forall (fun u => cdvdSectorHash (fst (fst u)) (snd (fst u)) <> cdvdSectorHash l m) ups2 /\
    out' = memcpy out buf BLOCK_BYTES.
Proof.
  intros HC Hlens Hne. revert out'.
  induction ups as [| u ups IH] using rev_ind; intros out' Hfetch.
  - cbn in Hfetch. rewrite (cdvdCacheFetch_reset_miss l m out C0 Hne) in Hfetch.
    discriminate Hfetch.
  - apply Forall_app in Hlens. destruct Hlens as (Hlens & Hu).
    apply List.Forall_inv in Hu.
    rewrite cdvdCacheUpdates_snoc in Hfetch.
    destruct u as [[a ma] buf]. cbn [fst snd] in *.
    destruct (Z.eq_dec (cdvdSectorHash a ma) (cdvdSectorHash l m)) as [Heq | Hdiff].
    + assert (HCn : length (cdvdCacheUpdates ups (cdvdCacheReset C0)) = Z.to_nat CacheSize).
      { rewrite cdvdCacheUpdates_length, cdvdCacheReset_length. exact HC. }
      destruct (cdvdCacheUpdate_same a ma buf _ HCn) as (old & _ & Hnew).
      unfold cdvdCacheFetch in Hfetch. rewrite <- Heq, Hnew in Hfetch.
      cbn [lsn mode data] in Hfetch.
      destruct (Z.eqb_spec a l) as [-> | ?]; [| discriminate Hfetch].
      destruct (Z.eqb_spec ma m) as [-> | ?]; [| discriminate Hfetch].
      cbn [andb] in Hfetch. injection Hfetch as <-.
      exists ups, buf, []. split; [reflexivity |]. split; [constructor |].
      apply memcpy_twice. exact Hu.
    + unfold cdvdCacheFetch in Hfetch.
      rewrite cdvdCacheUpdate_other in Hfetch.
      2:{ pose proof (cdvdSectorHash_bound a ma).
          pose proof (cdvdSectorHash_bound l m). lia. }
      destruct (IH Hlens out' Hfetch) as (ups1 & buf1 & ups2 & -> & Hall & ->).
      exists ups1, buf1, (ups2 ++ [(a, ma, buf)]).
      split; [rewrite <- app_assoc; reflexivity |].
      split; [| reflexivity].
      apply Forall_app. split; [exact Hall |].
      constructor; [exact Hdiff | constructor].
Qed.

(** * The further properties on concrete inputs *)

Lemma block_fits_by_evaluation (l : list char) :
  Nat.leb (Z.to_nat BLOCK_BYTES) (length l) = true ->
  (Z.to_nat BLOCK_BYTES <= length l)%nat.
Proof. apply Nat.leb_le. Qed.

Lemma request_after_reset_wakes_worker_witness :
  fst (cdvdRequestSector 18 CDVD_MODE_2048 (mock_state (sample_disc 100 0))) = 0 /\
  threadRequestPending
    (snd (cdvdRequestSector 18 CDVD_MODE_2048 (mock_state (sample_disc 100 0)))) = true.
Proof.
  rewrite (request_after_reset_wakes_worker (mock_state (sample_disc 100 0))
             (replicate (Z.to_nat CacheSize) (mkSectorInfo 0 0 zero_block))
             18 CDVD_MODE_2048).
  - split; reflexivity.
  - reflexivity.
  - by_evaluation.
Defined.

Lemma request_fulfilled_by_one_pass_witness :
  let s := mock_state (sample_disc 100 0) in
  let s2 := cdvdThread_service (snd (cdvdRequestSector 18 CDVD_MODE_2048 s)) in
  cdvdRequestComplete s2 = 1 /\ lsn (threadRequestInfo s2) = 16.
Proof.
  cbv zeta.
  destruct (request_fulfilled_by_one_pass (mock_state (sample_disc 100 0))
              18 CDVD_MODE_2048 zero_block)
    as (_ & Hdone & Hl & _).
  - by_evaluation.
  - exact fresh_cache_length.
  - vm_compute. reflexivity.
  - split; [exact Hdone | exact Hl].
Defined.

Lemma served_block_is_cached_witness :
  let s2 := cdvdThread_service
              (mock_state_with_request (sample_disc 1000 0) 32 CDVD_MODE_2352 true) in
  cdvdRequestSector 40 CDVD_MODE_2352 s2 = (0, s2).
Proof.
  cbv zeta.
  apply (served_block_is_cached
           (mock_state_with_request (sample_disc 1000 0) 32 CDVD_MODE_2352 true)
           40 CDVD_MODE_2352).
  - reflexivity.
  - exact fresh_cache_length.
  - by_evaluation.
  - vm_compute. reflexivity.
  - reflexivity.
  - apply block_fits_by_evaluation. vm_compute. reflexivity.
Defined.

Lemma prefetched_block_is_cached_witness :
  let s' := cdvdThread_service
              (mock_state_prefetching (sample_disc 1000 0) 48 CDVD_MODE_2352 15) in
  let r := cdvdRequestSector 50 CDVD_MODE_2352 s' in
  fst r = 0 /\ threadRequestPending (snd r) = false /\ trace (snd r) = trace s'.
Proof.
  cbv zeta.
  destruct (prefetched_block_is_cached
              (mock_state_prefetching (sample_disc 1000 0) 48 CDVD_MODE_2352 15) 50)
    as (H1 & H2 & H3 & _).
  - reflexivity.
  - intros HH. discriminate HH.
  - exact fresh_cache_length.
  - by_evaluation.
  - vm_compute. reflexivity.
  - apply block_fits_by_evaluation. vm_compute. reflexivity.
  - split; [exact H1 |]. split; [exact H2 | exact H3].
Defined.

Lemma request_then_getSector_witness :
  let s1 := snd (cdvdRequestSector 18 CDVD_MODE_2048 (mock_state (sample_disc 100 0))) in
  let s2 := if threadRequestPending s1 then cdvdThread_service s1 else s1 in
  cdvdGetSector 18 CDVD_MODE_2048 s2 = Some (2048 * (18 mod 16)) /\
  cdvdGetSector 18 CDVD_MODE_2352 s2 = Some (2352 * (18 mod 16)).
Proof.
  cbv zeta.
  destruct (request_then_getSector (mock_state (sample_disc 100 0))
              18 CDVD_MODE_2048 CDVD_MODE_2352)
    as (_ & _ & H2048 & Hraw).
  - by_evaluation.
  - by_evaluation.
  - split; [exact H2048 |].
    apply Hraw; intros HH; discriminate HH.
Defined.

Lemma cdvdGetSector_sector_fits_witness :
  exists off,
    cdvdGetSector 31 CDVD_MODE_2328
      (mock_state_with_request (sample_disc 100 0) 16 CDVD_MODE_2328 false) = Some off /\
    off + 2328 <= BLOCK_BYTES.
Proof.
  destruct (cdvdGetSector_sector_fits
              (mock_state_with_request (sample_disc 100 0) 16 CDVD_MODE_2328 false)
              31 CDVD_MODE_2328)
    as (off & Hoff & _ & _ & Hfit & _).
  - exact sample_modes_distinct.
  - reflexivity.
  - by_evaluation.
  - exists off. split; [exact Hoff | exact (Hfit eq_refl)].
Defined.

Lemma direct_read_again_uses_cache_witness :
  let s1 := snd (cdvdDirectReadSector 18 CDVD_MODE_2048 [] (mock_state (sample_disc 100 0))) in
  trace (snd (cdvdDirectReadSector 20 CDVD_MODE_2048 [] s1)) = trace s1.
Proof.
  cbv zeta.
  destruct (direct_read_again_uses_cache (mock_state (sample_disc 100 0))
              18 20 CDVD_MODE_2048 [] [])
    as (_ & Htr & _).
  - by_evaluation.
  - exact fresh_cache_length.
  - by_evaluation.
  - reflexivity.
  - exact Htr.
Defined.

(** Sector 1 read directly in mode 2048 from the sample disc: the
    copy starts at byte 2048 of the block, which is byte 0 of the
    pattern. *)
Lemma direct_read_submodes_copy_sector_witness :
  default [] (take 4 <$> snd (fst (cdvdDirectReadSector 1 CDVD_MODE_2048 []
                                     (mock_state (sample_disc 100 0)))))
  = [Byte.x00; Byte.x01; Byte.x02; Byte.x03].
Proof.
  destruct (direct_read_submodes_copy_sector
              (mock_state (sample_disc 100 0)) 1 CDVD_MODE_2048 [])
    as (_ & H2048 & _).
  - exact sample_modes_distinct.
  - by_evaluation.
  - by_evaluation.
  - apply block_length_by_evaluation. vm_compute. reflexivity.
  - rewrite (H2048 eq_refl). vm_compute. reflexivity.
Defined.

(** A request for block 32 of a disc of 40 sectors is read with a
    count of 8. *)
Lemma request_read_stays_on_disc_witness :
  trace (cdvdThread_service
           (mock_state_with_request (sample_disc 40 0) 32 CDVD_MODE_2352 true))
  = [EvReadSectors2352 32 8 true; EvNotifyRequest] /\
  Z.min 16 (40 - 32) = 8.
Proof.
  destruct (request_read_stays_on_disc
              (mock_state_with_request (sample_disc 40 0) 32 CDVD_MODE_2352 true))
    as (_ & _ & es & Htr & _).
  - reflexivity.
  - by_evaluation.
  - by_evaluation.
  - split; vm_compute; reflexivity.
Defined.

(** On a disc of 40 sectors with the prefetch at block 48 the pass
    calls the backend with a count of -8. *)
Lemma prefetch_runs_past_end_of_disc_witness :
  trace (cdvdThread_service
           (mock_state_prefetching (sample_disc 40 0) 48 CDVD_MODE_2352 14))
  = [EvReadSectors2352 48 (-8) true] /\
  40 - 48 <= 0.
Proof.
  destruct (prefetch_runs_past_end_of_disc
              (mock_state_prefetching (sample_disc 40 0) 48 CDVD_MODE_2352 14))
    as (Hc & _).
  - reflexivity.
  - intros HH. discriminate HH.
  - by_evaluation.
  - exact fresh_cache_length.
  - split; [vm_compute; reflexivity | exact Hc].
Defined.

Lemma no_read_while_disc_absent_witness :
  let s := mock_state_with_request (mkMockSrc [false] 100 0 sample_block)
             32 CDVD_MODE_2352 true in
  trace (cdvdThread_body s) = [EvNewDiscCB; EvSleep 10] /\
  threadRequestPending (cdvdThread_body s) = true.
Proof.
  cbv zeta.
  destruct (no_read_while_disc_absent
              (mock_state_with_request (mkMockSrc [false] 100 0 sample_block)
                 32 CDVD_MODE_2352 true))
    as (Htr & _ & Hp & _).
  - reflexivity.
  - split; [exact Htr | exact Hp].
Defined.

(** The drive answers absent, then present: after the second check a
    block cached before is not found any more. *)
Lemma disc_change_invalidates_cache_witness :
  let s0 := mock_state (mkMockSrc [false; true] 100 0 sample_block) in
  let s1 := set_Cache (cdvdCacheUpdate 16 CDVD_MODE_2048 (sample_block 16) (Cache s0)) s0 in
  let s2 := snd (cdvdUpdateDiscStatus s1) in
  let s3 := snd (cdvdUpdateDiscStatus s2) in
  fst (cdvdCacheFetch 16 CDVD_MODE_2048 zero_block (Cache s2)) = true /\
  cdvdCacheFetch 16 CDVD_MODE_2048 zero_block (Cache s3) = (false, zero_block).
Proof.
  cbv zeta.
  split; [vm_compute; reflexivity |].
  apply (disc_change_invalidates_cache
           (snd (cdvdUpdateDiscStatus
                   (set_Cache
                      (cdvdCacheUpdate 16 CDVD_MODE_2048 (sample_block 16)
                         (Cache (mock_state (mkMockSrc [false; true] 100 0 sample_block))))
                      (mock_state (mkMockSrc [false; true] 100 0 sample_block)))))
           16 CDVD_MODE_2048 0 zero_block).
  - vm_compute. reflexivity.
  - vm_compute. reflexivity.
  - intros HH. discriminate HH.
Defined.

Lemma disc_type_after_insertion_witness :
  let s := snd (cdvdUpdateDiscStatus
                  (mock_state (mkMockSrc [false; true] 100 0 sample_block))) in
  curDiskType (disc (snd (cdvdUpdateDiscStatus s))) = CDVD_TYPE_DETCTDVDS.
Proof.
  cbv zeta.
  destruct (disc_type_after_insertion
              (snd (cdvdUpdateDiscStatus
                      (mock_state (mkMockSrc [false; true] 100 0 sample_block)))))
    as (_ & Htype).
  - vm_compute. reflexivity.
  - vm_compute. reflexivity.
  - destruct Htype as (_ & Hdvd & _).
    + intros HH. vm_compute in HH. discriminate HH.
    + by_evaluation.
    + apply Hdvd. vm_compute. reflexivity.
Defined.

(** Three updates, the first and the last for block 16 in mode 2048 and
    one for block 32 in between: the fetch of block 16 gives the block
    of the last update. *)
Lemma cache_hit_returns_latest_write_witness :
  exists ups1 buf ups2,
    [(16, CDVD_MODE_2048, zero_block); (32, CDVD_MODE_2048, zero_block);
     (16, CDVD_MODE_2048, sample_block 16)]
    = ups1 ++ (16, CDVD_MODE_2048, buf) :: ups2 /\
    Forall (fun u => cdvdSectorHash (fst (fst u)) (snd (fst u))
                     <> cdvdSectorHash 16 CDVD_MODE_2048) ups2 /\
    memcpy zero_block (sample_block 16) BLOCK_BYTES = memcpy zero_block buf BLOCK_BYTES.
Proof.
  apply (cache_hit_returns_latest_write fresh_cache
           [(16, CDVD_MODE_2048, zero_block); (32, CDVD_MODE_2048, zero_block);
            (16, CDVD_MODE_2048, sample_block 16)]
           16 CDVD_MODE_2048 zero_block
           (memcpy zero_block (sample_block 16) BLOCK_BYTES)).
  - exact fresh_cache_length.
  - repeat constructor; cbn [snd];
      first [ rewrite zero_block_length | rewrite sample_block_length ]; lia.
  - intros HH. discriminate HH.
  - unfold cdvdCacheUpdates. cbn [fold_left fst snd].
    set (C2 := cdvdCacheUpdate 32 CDVD_MODE_2048 zero_block
                 (cdvdCacheUpdate 16 CDVD_MODE_2048 zero_block
                    (cdvdCacheReset fresh_cache))).
    destruct (cdvdCacheUpdate_same 16 CDVD_MODE_2048 (sample_block 16) C2)
      as (old & _ & Hnew).
    { subst C2. rewrite !cdvdCacheUpdate_length, cdvdCacheReset_length.
      exact fresh_cache_length. }
    rewrite (cdvdCacheFetch_hit _ _ _ _ _ Hnew eq_refl eq_refl). cbn [data].
    rewrite memcpy_twice by (rewrite sample_block_length; lia). reflexivity.
Defined.
